(** * Detection debouncer of the elephant-detection GUIs

    A shallow embedding of [update_detection_display]
    (python_gui/simple_elephant_gui.py and python_gui/advanced_elephant_gui.py,
    whose debounce code is the same line for line) and of
    [update_detection_indicator] (python_gui/noise_logger_gui.py).

    Numbers.  [current_confidence] is a Python float that the code only
    compares with literals: it is an IEEE binary64 value here ([PrimFloat]),
    so that infinities and NaN are inputs like any other.  The readings of
    [time.time()] and the sums and differences taken on them are exact
    rationals ([Q]): the specification reasons about [t0 + 5.1] and
    [t0 + 10.1] as exact sums, and rounding of time stamps is outside the
    model. *)

From Stdlib Require Import Bool List Ascii String ZArith QArith Qround Lia Lqa.
From Stdlib Require Import Floats.
From Stdlib Require Uint63.
Import ListNotations.

(* Decimal literals such as 0.3 denote the nearest binary64 value, as they
   do in Python. *)
Set Warnings "-inexact-float".

Local Open Scope string_scope.
Local Open Scope list_scope.
Local Open Scope Q_scope.

(** ** Data model *)

(** The four values taken by [new_detection_state] and
    [last_detection_state]: the string tags ["no_elephant"],
    ["elephant_low"], ["elephant_medium"] and ["elephant_high"]. *)
Inductive DetectionState : Set :=
  | no_elephant
  | elephant_low
  | elephant_medium
  | elephant_high.

Definition DetectionState_eqb (a b : DetectionState) : bool :=
  match a, b with
  | no_elephant, no_elephant
  | elephant_low, elephant_low
  | elephant_medium, elephant_medium
  | elephant_high, elephant_high => true
  | _, _ => false
  end.

(** The instance attributes read and written by the debounce code. *)
Record Gui : Type := mkGui {
  current_classification : string;
  current_confidence : float;
  detection_timer_start : Q;
  detection_timer_duration : Q;
  last_detection_state : DetectionState;
  detection_locked : bool
}.

(** [__init__]: the attributes as the constructor leaves them. *)
Definition init : Gui :=
  {| current_classification := "not_elephant";
     current_confidence := 0%float;
     detection_timer_start := 0;
     detection_timer_duration := 5;
     last_detection_state := no_elephant;
     detection_locked := false |}.

(** ** Tier mapping *)

(** "Determine current detection state" of the simple and of the advanced
    GUI: Python's [>] on floats is the IEEE comparison, false on NaN. *)
Definition new_detection_state (classification : string) (confidence : float)
  : DetectionState :=
  if String.eqb classification "elephant" then
    if (0.5 <? confidence)%float then elephant_high
    else if (0.3 <? confidence)%float then elephant_medium
    else elephant_low
  else no_elephant.

(** The same lines of advanced_elephant_gui.py (659 to 667). *)
Definition advanced_new_detection_state (classification : string)
    (confidence : float) : DetectionState :=
  if String.eqb classification "elephant" then
    if (0.5 <? confidence)%float then elephant_high
    else if (0.3 <? confidence)%float then elephant_medium
    else elephant_low
  else no_elephant.

(** [update_detection_indicator] of the noise logger, once the indicator
    widget exists: it keeps no state and chooses the text of the indicator
    directly.  The four texts are those of the other two GUIs, so each is
    named by the tier it announces. *)
Definition update_detection_indicator (classification : string)
    (confidence : float) : DetectionState :=
  if String.eqb classification "elephant" && (0.8 <? confidence)%float
  then elephant_high
  else if String.eqb classification "elephant" && (0.6 <? confidence)%float
  then elephant_medium
  else if String.eqb classification "elephant"
  then elephant_low
  else no_elephant.

(** ** The debounce step *)

(** [update_detection_display] at [current_time = now].  Calls that only
    configure widgets are left out; every test and every assignment to an
    attribute is kept.  The source clears [detection_locked] before it looks
    at the new state once the period has elapsed and sets it again when the
    detection goes on: each branch below gives the attributes as they are
    when the method returns.  The operations are comparisons of strings,
    comparisons and one difference of floats, and assignments: none of them
    raises, so the result is a plain state.  The advanced GUI runs the same
    statements and then counts and logs. *)
Definition update_detection_display (now : Q) (g : Gui) : Gui :=
  let new := new_detection_state (current_classification g)
                                 (current_confidence g) in
  if negb (DetectionState_eqb new no_elephant)
     && (negb (detection_locked g)
         || negb (DetectionState_eqb new (last_detection_state g)))
  then
    {| current_classification := current_classification g;
       current_confidence := current_confidence g;
       detection_timer_start := now;
       detection_timer_duration := detection_timer_duration g;
       last_detection_state := new;
       detection_locked := true |}
  else if detection_locked g then
    let elapsed := now - detection_timer_start g in
    if Qle_bool (detection_timer_duration g) elapsed then
      if DetectionState_eqb new no_elephant then
        {| current_classification := current_classification g;
           current_confidence := current_confidence g;
           detection_timer_start := detection_timer_start g;
           detection_timer_duration := detection_timer_duration g;
           last_detection_state := no_elephant;
           detection_locked := false |}
      else
        {| current_classification := current_classification g;
           current_confidence := current_confidence g;
           detection_timer_start := now;
           detection_timer_duration := detection_timer_duration g;
           last_detection_state := new;
           detection_locked := true |}
    else g
  else if negb (detection_locked g) && DetectionState_eqb new no_elephant
  then
    {| current_classification := current_classification g;
       current_confidence := current_confidence g;
       detection_timer_start := detection_timer_start g;
       detection_timer_duration := detection_timer_duration g;
       last_detection_state := no_elephant;
       detection_locked := false |}
  else g.

(** ** The specification's view of the state *)

(** [tier] is the latched state, [active_since] the start of the timer, and
    [locked_until] the instant at which [elapsed] reaches the duration. *)
Definition tier (g : Gui) : DetectionState := last_detection_state g.
Definition active_since (g : Gui) : Q := detection_timer_start g.
Definition locked_until (g : Gui) : Q :=
  detection_timer_start g + detection_timer_duration g.

(** The assignments of [parse_classification] (lines 429 and 430). *)
Definition store (label : string) (confidence : float) (g : Gui) : Gui :=
  {| current_classification := label;
     current_confidence := confidence;
     detection_timer_start := detection_timer_start g;
     detection_timer_duration := detection_timer_duration g;
     last_detection_state := last_detection_state g;
     detection_locked := detection_locked g |}.

(** [parse_classification] once the line is decoded: store the pair, then
    update the display (line 432). *)
Definition parse_classification (label : string) (confidence : float)
    (now : Q) (g : Gui) : Gui :=
  update_detection_display now (store label confidence g).

(** The call made by [process_data_queue] on every turn of the event loop,
    for the countdown (lines 380 and 381). *)
Definition process_data_queue_tick (now : Q) (g : Gui) : Gui :=
  if detection_locked g then update_detection_display now g else g.

(** The source returns nothing.  The specification's [transitioned] flag is
    read off the two states: the latched tier is not the one it was. *)
Definition transitioned (before after : Gui) : bool :=
  negb (DetectionState_eqb (tier before) (tier after)).

(** [observe label confidence now] of the specification: one decoded
    classification line handled at time [now].  The positive class of the
    specification is the label ["elephant"]. *)
Definition observe (label : string) (confidence : float) (now : Q) (g : Gui)
  : Gui * bool :=
  let g' := parse_classification label confidence now g in
  (g', transitioned g g').

(** ** Sequences of observations *)

Record Observation : Type := mkObservation {
  label : string;
  confidence : float;
  arrival_time : Q
}.

Definition candidate_tier (o : Observation) : DetectionState :=
  new_detection_state (label o) (confidence o).

Definition step (g : Gui) (o : Observation) : Gui :=
  fst (observe (label o) (confidence o) (arrival_time o) g).

Definition run (os : list Observation) (g : Gui) : Gui :=
  fold_left step os g.

(** The flags returned along a run, in the order of the calls. *)
Fixpoint flags (os : list Observation) (g : Gui) : list bool :=
  match os with
  | [] => []
  | o :: rest =>
      snd (observe (label o) (confidence o) (arrival_time o) g)
      :: flags rest (step g o)
  end.

(** Arrival times never go back. *)
Fixpoint chronological (os : list Observation) : Prop :=
  match os with
  | [] => True
  | o :: rest =>
      Forall (fun o' => arrival_time o <= arrival_time o') rest
      /\ chronological rest
  end.

(** A tier stays latched along the observations [os] taken from [g]. *)
Fixpoint stays_latched (os : list Observation) (g : Gui) : Prop :=
  match os with
  | [] => tier g <> no_elephant
  | o :: rest => tier g <> no_elephant /\ stays_latched rest (step g o)
  end.

(** The states a session can be in: the constructor's, then any decoded
    line and any turn of the event loop, at any time. *)
Inductive reachable : Gui -> Prop :=
  | reach_init : reachable init
  | reach_line l c now g :
      reachable g -> reachable (parse_classification l c now g)
  | reach_tick now g :
      reachable g -> reachable (process_data_queue_tick now g).

(** The lock flag and the latched tier agree. *)
Definition consistent (g : Gui) : Prop :=
  detection_locked g = true <-> last_detection_state g <> no_elephant.

(** A session that has latched a detection at confidence 0.85 at time 100
    and is locked until 105. *)
Definition high_at_100 : Gui := fst (observe "elephant" 0.85 100 init).

(** ** The advanced GUI: widgets, line protocol and event loop

    The rest of python_gui/advanced_elephant_gui.py that bears on a
    detection: the widgets configured by [update_detection_display], the
    parsers of the serial lines and the turn of the event loop.  The simple
    GUI has the same code without the statistics and the plot.

    Lines are strings of bytes.  The prefixes tested and the separator are
    ASCII, so testing a prefix, slicing it off once it matched and splitting
    on a comma act on bytes as they do on code points. *)

(** What the parsers need of Python: [str.strip()], and [float(s)] and
    [int(s)], which are [None] when the call raises [ValueError]. *)
Record Builtins : Type := mkBuiltins {
  py_strip : string -> string;
  py_float : string -> option float;
  py_int : string -> option Z
}.

(** [s.split(sep)] for a separator of one character: never empty. *)
Fixpoint split (sep : ascii) (s : string) : list string :=
  match s with
  | EmptyString => [EmptyString]
  | String c rest =>
      if Ascii.eqb c sep then EmptyString :: split sep rest
      else match split sep rest with
           | [] => [String c EmptyString]
           | p :: ps => String c p :: ps
           end
  end.

(** The slice [s[n:]]. *)
Fixpoint drop_chars (n : nat) (s : string) : string :=
  match n, s with
  | O, _ => s
  | S _, EmptyString => EmptyString
  | S n', String _ rest => drop_chars n' rest
  end.

(** [max(0, x)]. *)
Definition max0 (x : Q) : Q := if Qle_bool x 0 then 0 else x.

(** Rounding to the nearest integer, ties to the even one. *)
Definition round_half_even (x : Q) : Z :=
  let f := Qfloor x in
  let d := x - inject_Z f in
  if Qle_bool d (1 # 2) then
    if Qle_bool (1 # 2) d then (if Z.even f then f else f + 1)%Z else f
  else (f + 1)%Z.

(** The format [{x:.1f}]: the number of tenths that the text shows, as
    the conversion rounds the value to one decimal, ties to even. *)
Definition format_tenths (x : Q) : Z := round_half_even (x * 10).

(** [d.append(x)] on a [deque(maxlen=maxlen)]: when full, the oldest entry
    leaves. *)
Definition deque_append {A : Type} (maxlen : nat) (x : A) (d : list A)
  : list A :=
  if Nat.ltb (List.length d) maxlen then d ++ [x] else tl (d ++ [x]).

(** The texts given to [detection_label]: the one set by
    [setup_detection_panel] and the four set by [update_detection_display],
    each with a background colour of its own. *)
Inductive LabelText : Set :=
  | text_initializing
  | text_elephant_detected
  | text_possible_elephant
  | text_low_confidence
  | text_no_elephant.

(** What the user perceives of a detection: the text of [detection_label],
    the countdown of [timer_label] ([None] for the empty text, [Some t] for
    "Detection active: r s remaining" where the decimal r printed with
    [.1f] has [t] tenths, so 23 for "2.3"), the calls of [root.bell()] so
    far and [stats['elephant_detections']]. *)
Record Panel : Type := mkPanel {
  detection_label : LabelText;
  timer_label : option Z;
  bell_count : nat;
  elephant_detections : nat
}.

(** The eight entries of [current_features], in the order of the line. *)
Record Features : Type := mkFeatures {
  rms : float;
  infrasound_energy : float;
  low_band_energy : float;
  mid_band_energy : float;
  spectral_centroid : float;
  dominant_freq : float;
  spectral_flux : float;
  temporal_envelope : float
}.

Module AdvancedGui.

(** The attributes of the session: [current_features] is [None] for the
    empty dict of the constructor; the two deques of [plot_data];
    [stats['total_samples']]. *)
Record App : Type := mkApp {
  gui : Gui;
  panel : Panel;
  current_features : option Features;
  plot_time : list Q;
  plot_rms : list float;
  total_samples : Z
}.

Definition init : App :=
  {| gui := init;
     panel := {| detection_label := text_initializing;
                 timer_label := None;
                 bell_count := 0;
                 elephant_detections := 0 |};
     current_features := None;
     plot_time := [];
     plot_rms := [];
     total_samples := 0 |}.

Definition set_detection_label (t : LabelText) (p : Panel) : Panel :=
  {| detection_label := t;
     timer_label := timer_label p;
     bell_count := bell_count p;
     elephant_detections := elephant_detections p |}.

(** [update_detection_display] (lines 654 to 720) with its widgets. *)
Definition update_detection_display (now : Q) (g : Gui) (p : Panel)
  : Gui * Panel :=
  let new := advanced_new_detection_state (current_classification g)
                                          (current_confidence g) in
  let '(g1, p1) :=
    if negb (DetectionState_eqb new no_elephant)
       && (negb (detection_locked g)
           || negb (DetectionState_eqb new (last_detection_state g)))
    then
      let g1 :=
        {| current_classification := current_classification g;
           current_confidence := current_confidence g;
           detection_timer_start := now;
           detection_timer_duration := detection_timer_duration g;
           last_detection_state := new;
           detection_locked := true |} in
      if DetectionState_eqb new elephant_high then
        (g1, {| detection_label := text_elephant_detected;
                timer_label := timer_label p;
                bell_count := S (bell_count p);
                elephant_detections := S (elephant_detections p) |})
      else if DetectionState_eqb new elephant_medium then
        (g1, set_detection_label text_possible_elephant p)
      else
        (g1, set_detection_label text_low_confidence p)
    else if detection_locked g then
      let elapsed := now - detection_timer_start g in
      if Qle_bool (detection_timer_duration g) elapsed then
        if DetectionState_eqb new no_elephant then
          ({| current_classification := current_classification g;
              current_confidence := current_confidence g;
              detection_timer_start := detection_timer_start g;
              detection_timer_duration := detection_timer_duration g;
              last_detection_state := no_elephant;
              detection_locked := false |},
           set_detection_label text_no_elephant p)
        else
          ({| current_classification := current_classification g;
              current_confidence := current_confidence g;
              detection_timer_start := now;
              detection_timer_duration := detection_timer_duration g;
              last_detection_state := new;
              detection_locked := true |},
           p)
      else (g, p)
    else if negb (detection_locked g) && DetectionState_eqb new no_elephant
    then
      ({| current_classification := current_classification g;
          current_confidence := current_confidence g;
          detection_timer_start := detection_timer_start g;
          detection_timer_duration := detection_timer_duration g;
          last_detection_state := no_elephant;
          detection_locked := false |},
       set_detection_label text_no_elephant p)
    else (g, p) in
  let timer :=
    if detection_locked g1
       && negb (DetectionState_eqb (last_detection_state g1) no_elephant)
    then Some (format_tenths
                 (max0 (detection_timer_duration g1
                        - (now - detection_timer_start g1))))
    else None in
  (g1, {| detection_label := detection_label p1;
          timer_label := timer;
          bell_count := bell_count p1;
          elephant_detections := elephant_detections p1 |}).

Definition set_display (gp : Gui * Panel) (a : App) : App :=
  {| gui := fst gp;
     panel := snd gp;
     current_features := current_features a;
     plot_time := plot_time a;
     plot_rms := plot_rms a;
     total_samples := total_samples a |}.

(** [parse_classification] (lines 614 to 628).  The label is assigned
    before [float] is called: when that call raises, the handler only logs
    and the new label stays. *)
Definition parse_classification (B : Builtins) (now : Q) (line : string)
    (a : App) : App :=
  match split "," (drop_chars 15 line) with
  | p0 :: p1 :: _ =>
      let g := gui a in
      match py_float B (py_strip B p1) with
      | Some c =>
          set_display
            (update_detection_display now (store (py_strip B p0) c g)
                                      (panel a)) a
      | None =>
          set_display (store (py_strip B p0) (current_confidence g) g,
                       panel a) a
      end
  | _ => a
  end.

(** [update_realtime_plot] (lines 725 to 731): one point on each deque. *)
Definition update_realtime_plot (now : Q) (f : Features) (a : App) : App :=
  {| gui := gui a;
     panel := panel a;
     current_features := Some f;
     plot_time := deque_append 200 now (plot_time a);
     plot_rms := deque_append 200 (rms f) (plot_rms a);
     total_samples := total_samples a |}.

(** The dict display of [parse_features]: the eight conversions in order,
    the first that raises ends them. *)
Definition float_fields (B : Builtins) (parts : list string)
  : option Features :=
  match parts with
  | p0 :: p1 :: p2 :: p3 :: p4 :: p5 :: p6 :: p7 :: _ =>
      match py_float B p0, py_float B p1, py_float B p2, py_float B p3,
            py_float B p4, py_float B p5, py_float B p6, py_float B p7 with
      | Some f0, Some f1, Some f2, Some f3,
        Some f4, Some f5, Some f6, Some f7 =>
          Some (mkFeatures f0 f1 f2 f3 f4 f5 f6 f7)
      | _, _, _, _, _, _, _, _ => None
      end
  | _ => None
  end.

(** [parse_features] (lines 594 to 612). *)
Definition parse_features (B : Builtins) (now : Q) (line : string) (a : App)
  : App :=
  match float_fields B (split "," (drop_chars 9 line)) with
  | Some f => update_realtime_plot now f a
  | None => a
  end.

(** [parse_status] (lines 630 to 642): the uptime is converted before the
    sample count is stored. *)
Definition parse_status (B : Builtins) (line : string) (a : App) : App :=
  match split "," (drop_chars 7 line) with
  | sample_count :: uptime :: _ :: _ =>
      match py_int B uptime with
      | Some _ =>
          match py_int B sample_count with
          | Some n =>
              {| gui := gui a;
                 panel := panel a;
                 current_features := current_features a;
                 plot_time := plot_time a;
                 plot_rms := plot_rms a;
                 total_samples := n |}
          | None => a
          end
      | None => a
      end
  | _ => a
  end.

(** [process_serial_line] (lines 578 to 592), handled at time [now]. *)
Definition process_serial_line (B : Builtins) (now : Q) (line : string)
    (a : App) : App :=
  if String.prefix "FEATURES:" line then parse_features B now line a
  else if String.prefix "CLASSIFICATION:" line
  then parse_classification B now line a
  else if String.prefix "STATUS:" line then parse_status B line a
  else a.

(** [process_data_queue] (lines 562 to 576): the queued lines, each with
    the time at which it is handled, then the update for the countdown. *)
Definition process_data_queue (B : Builtins) (running : bool)
    (queued : list (Q * string)) (now : Q) (a : App) : App :=
  let a1 :=
    fold_left (fun acc tl => process_serial_line B (fst tl) (snd tl) acc)
              queued a in
  if running then
    if detection_locked (gui a1)
    then set_display (update_detection_display now (gui a1) (panel a1)) a1
    else a1
  else a1.

(** [test_elephant_detection] (lines 1042 to 1054): the TEST button. *)
Definition test_elephant_detection (B : Builtins) (t1 t2 : Q) (a : App)
  : App :=
  parse_features B t2 "FEATURES:0.05,0.8,0.12,0.08,85.2,95.1,0.15,0.22"
    (parse_classification B t1
       "CLASSIFICATION:elephant,0.85,high_confidence" a).

(** The sessions that the event loop and the TEST button can produce. *)
Inductive reachable (B : Builtins) : App -> Prop :=
  | reach_start : reachable B init
  | reach_turn running queued now a :
      reachable B a ->
      reachable B (process_data_queue B running queued now a)
  | reach_test t1 t2 a :
      reachable B a -> reachable B (test_elephant_detection B t1 t2 a).

End AdvancedGui.

(** The text that announces a tier. *)
Definition text_of (s : DetectionState) : LabelText :=
  match s with
  | no_elephant => text_no_elephant
  | elephant_low => text_low_confidence
  | elephant_medium => text_possible_elephant
  | elephant_high => text_elephant_detected
  end.

(** The label shows the latched tier, or nothing has been shown yet. *)
Definition label_agrees (g : Gui) (p : Panel) : Prop :=
  detection_label p = text_of (last_detection_state g)
  \/ (detection_label p = text_initializing
      /\ last_detection_state g = no_elephant).

(** What the session keeps at every turn (python_gui/advanced_elephant_gui.py):
    the lock flag agrees with the tier, the label shows the tier, the bell
    rang once per counted detection, the dwell duration is the
    constructor's, and the two deques of the plot go together and stay
    within their capacity. *)
Definition session_ok (a : AdvancedGui.App) : Prop :=
  consistent (AdvancedGui.gui a)
  /\ label_agrees (AdvancedGui.gui a) (AdvancedGui.panel a)
  /\ bell_count (AdvancedGui.panel a)
     = elephant_detections (AdvancedGui.panel a)
  /\ detection_timer_duration (AdvancedGui.gui a) = 5
  /\ List.length (AdvancedGui.plot_time a)
     = List.length (AdvancedGui.plot_rms a)
  /\ (List.length (AdvancedGui.plot_time a) <= 200)%nat.

(** ** The noise logger: indicator, event log and queue

    python_gui/noise_logger_gui.py keeps no debounce state: every FEATURES
    line carries its own label and confidence and sets the indicator at
    once. *)

Module NoiseLogger.

(** The attributes and widgets a FEATURES line reaches: [bells] counts the
    calls of [root.bell()], [detection_events] lists the confidences of the
    entries written by [log_detection_event], latest first; the lines that
    [log_message] writes into the same widget are not listed. *)
Record Logger : Type := mkLogger {
  current_features : option Features;
  current_classification : string;
  current_confidence : float;
  detection_indicator : LabelText;
  bells : nat;
  detection_events : list float
}.

Definition init : Logger :=
  {| current_features := None;
     current_classification := "not_elephant";
     current_confidence := 0%float;
     detection_indicator := text_initializing;
     bells := 0;
     detection_events := [] |}.

(** The test of [log_detection_event] (line 1013). *)
Definition logs_event (classification : string) (confidence : float) : bool :=
  String.eqb classification "elephant" && (0.5 <? confidence)%float.

(** The dict display of [parse_features] (lines 952 to 961): the line
    gives rms, centroid, infrasound, low band, mid band, dominant
    frequency, temporal envelope and spectral flux, in that order. *)
Definition float_fields (B : Builtins) (parts : list string)
  : option Features :=
  match parts with
  | p0 :: p1 :: p2 :: p3 :: p4 :: p5 :: p6 :: p7 :: _ =>
      match py_float B p0, py_float B p1, py_float B p2, py_float B p3,
            py_float B p4, py_float B p5, py_float B p6, py_float B p7 with
      | Some f0, Some f1, Some f2, Some f3,
        Some f4, Some f5, Some f6, Some f7 =>
          Some {| rms := f0;
                  spectral_centroid := f1;
                  infrasound_energy := f2;
                  low_band_energy := f3;
                  mid_band_energy := f4;
                  dominant_freq := f5;
                  temporal_envelope := f6;
                  spectral_flux := f7 |}
      | _, _, _, _, _, _, _, _ => None
      end
  | _ => None
  end.

(** [update_detection_indicator] then [log_detection_event] (lines 965 and
    966), once the widgets exist. *)
Definition announce (classification : string) (confidence : float)
    (s : Logger) : Logger :=
  let shown := update_detection_indicator classification confidence in
  {| current_features := current_features s;
     current_classification := current_classification s;
     current_confidence := current_confidence s;
     detection_indicator := text_of shown;
     bells := if DetectionState_eqb shown elephant_high
              then S (bells s) else bells s;
     detection_events := if logs_event classification confidence
                         then confidence :: detection_events s
                         else detection_events s |}.

(** [parse_features] (lines 945 to 968): features and label are assigned
    before the confidence is converted. *)
Definition parse_features (B : Builtins) (data : string) (s : Logger)
  : Logger :=
  let parts := split "," (drop_chars 9 data) in
  match parts with
  | _ :: _ :: _ :: _ :: _ :: _ :: _ :: _ :: p8 :: p9 :: _ =>
      match float_fields B parts with
      | Some f =>
          let label := py_strip B p8 in
          match py_float B p9 with
          | Some c =>
              announce label c
                {| current_features := Some f;
                   current_classification := label;
                   current_confidence := c;
                   detection_indicator := detection_indicator s;
                   bells := bells s;
                   detection_events := detection_events s |}
          | None =>
              {| current_features := Some f;
                 current_classification := label;
                 current_confidence := current_confidence s;
                 detection_indicator := detection_indicator s;
                 bells := bells s;
                 detection_events := detection_events s |}
          end
      | None => s
      end
  | _ => s
  end.

(** [process_serial_data] (lines 922 to 943): the other kinds of line set
    status labels or are logged. *)
Definition process_serial_data (B : Builtins) (data : string) (s : Logger)
  : Logger :=
  if String.prefix "FEATURES:" data then parse_features B data s else s.

(** The loop of [process_queue] (lines 904 to 916): [budget] is what is
    left of [max_batch_size]. *)
Fixpoint process_batch (B : Builtins) (budget : nat) (queue : list string)
    (s : Logger) : list string * Logger :=
  match budget, queue with
  | S budget', data :: rest =>
      process_batch B budget' rest (process_serial_data B data s)
  | _, _ => (queue, s)
  end.

Definition process_queue (B : Builtins) (queue : list string) (s : Logger)
  : list string * Logger :=
  process_batch B 20 queue s.

End NoiseLogger.

(** ** The advanced GUI: five-second labeling

    [start_labeling], [update_labeling_progress], [finish_labeling] and
    [calculate_average_features] of python_gui/advanced_elephant_gui.py
    (lines 752 to 877).  The progress update reschedules itself every
    100 ms: each of its runs is a call here, at the time it reads. *)

(** [float(n)] for the length of a buffer (exact below 2^53). *)
Definition float_of_nat (n : nat) : float :=
  PrimFloat.of_uint63 (Uint63.of_Z (Z.of_nat n)).

(** [int(x)]: truncation towards zero. *)
Definition truncate (x : Q) : Z := Z.quot (Qnum x) (Zpos (Qden x)).

(** [min(x, 1.0)]. *)
Definition min1 (x : Q) : Q := if Qle_bool x 1 then x else 1.

Module Labeling.

(** An entry of [labeling_buffer]. *)
Record Sample : Type := mkSample {
  features : Features;
  timestamp : Q;
  classification : string;
  confidence : float
}.

(** An entry of [training_data]; [avg_features] is [None] for the empty
    dict. *)
Record Session : Type := mkSession {
  avg_features : option Features;
  label : option string;
  finished_at : Q;
  samples_count : nat;
  raw_samples : list Sample
}.

(** The attributes of the labeling, the width of [progress_fill] and the
    LABEL commands that [serial_connection.write] accepted, latest
    first. *)
Record State : Type := mkState {
  is_labeling : bool;
  current_label : option string;
  labeling_start_time : Q;
  labeling_duration : Q;
  labeling_buffer : list Sample;
  labeling_progress : Q;
  training_data : list Session;
  progress_fill : Z;
  label_writes : list string
}.

Definition init : State :=
  {| is_labeling := false;
     current_label := None;
     labeling_start_time := 0;
     labeling_duration := 5;
     labeling_buffer := [];
     labeling_progress := 0;
     training_data := [];
     progress_fill := 0;
     label_writes := [] |}.

(** A call returns, or stops at the division by a zero duration with the
    attributes as they are at that point. *)
Inductive Outcome : Type :=
  | Returned (s : State)
  | ZeroDivisionError (s : State).

Definition state_of (o : Outcome) : State :=
  match o with
  | Returned s => s
  | ZeroDivisionError s => s
  end.

(** The sum kept for one key, from the integer 0, over the count. *)
Definition average (values : list float) : float :=
  (fold_left PrimFloat.add values 0 / float_of_nat (List.length values))%float.

(** [calculate_average_features] (lines 852 to 877): every sample has the
    eight keys, so each key is counted once per sample. *)
Definition calculate_average_features (buffer : list Sample)
  : option Features :=
  match buffer with
  | [] => None
  | _ :: _ =>
      let column (key : Features -> float) :=
        average (map (fun s => key (features s)) buffer) in
      Some {| rms := column rms;
              infrasound_energy := column infrasound_energy;
              low_band_energy := column low_band_energy;
              mid_band_energy := column mid_band_energy;
              spectral_centroid := column spectral_centroid;
              dominant_freq := column dominant_freq;
              spectral_flux := column spectral_flux;
              temporal_envelope := column temporal_envelope |}
  end.

(** The text of [self.current_label] in an f-string. *)
Definition label_text (l : option string) : string :=
  match l with
  | Some s => s
  | None => "None"
  end.

(** [finish_labeling] (lines 812 to 850), at time [now].  The session is
    appended before the command is written; [written] tells whether
    [serial_connection.write] returned: when it raises, the handler logs
    and the session stays. *)
Definition finish_labeling (written : bool) (now : Q) (s : State) : State :=
  if negb (is_labeling s) then s
  else
    let buffer := labeling_buffer s in
    let recorded := negb (Nat.eqb (List.length buffer) 0) in
    {| is_labeling := false;
       current_label := None;
       labeling_start_time := labeling_start_time s;
       labeling_duration := labeling_duration s;
       labeling_buffer := [];
       labeling_progress := 0;
       training_data :=
         if recorded then
           training_data s
           ++ [{| avg_features := calculate_average_features buffer;
                  label := current_label s;
                  finished_at := now;
                  samples_count := List.length buffer;
                  raw_samples := buffer |}]
         else training_data s;
       progress_fill := 0;
       label_writes :=
         if recorded && written then
           ("LABEL:" ++ label_text (current_label s)
                     ++ String (ascii_of_nat 10) EmptyString)%string
           :: label_writes s
         else label_writes s |}.

(** [update_labeling_progress] (lines 779 to 810): [now] is the time it
    reads, [later] and [written] are for [finish_labeling] when it is
    called; [a] gives the features and the classification of the moment. *)
Definition update_labeling_progress (now later : Q) (written : bool)
    (a : AdvancedGui.App) (s : State) : Outcome :=
  if negb (is_labeling s) then Returned s
  else
    let elapsed := now - labeling_start_time s in
    if Qeq_bool (labeling_duration s) 0 then ZeroDivisionError s
    else
      let progress := min1 (elapsed / labeling_duration s) in
      let buffer :=
        match AdvancedGui.current_features a with
        | Some f =>
            labeling_buffer s
            ++ [{| features := f;
                   timestamp := now;
                   classification := current_classification (AdvancedGui.gui a);
                   confidence := current_confidence (AdvancedGui.gui a) |}]
        | None => labeling_buffer s
        end in
      let s1 :=
        {| is_labeling := is_labeling s;
           current_label := current_label s;
           labeling_start_time := labeling_start_time s;
           labeling_duration := labeling_duration s;
           labeling_buffer := buffer;
           labeling_progress := progress;
           training_data := training_data s;
           progress_fill := truncate (progress * 100);
           label_writes := label_writes s |} in
      if Qle_bool (labeling_duration s) elapsed
      then Returned (finish_labeling written later s1)
      else Returned s1.

(** [start_labeling] (lines 752 to 777): [started] is the time stored,
    [now], [later] and [written] are those of the first progress update. *)
Definition start_labeling (connected : bool) (l : string)
    (started now later : Q) (written : bool) (a : AdvancedGui.App)
    (s : State) : Outcome :=
  if negb connected then Returned s
  else if is_labeling s then Returned s
  else
    update_labeling_progress now later written a
      {| is_labeling := true;
         current_label := Some l;
         labeling_start_time := started;
         labeling_duration := labeling_duration s;
         labeling_buffer := [];
         labeling_progress := 0;
         training_data := training_data s;
         progress_fill := progress_fill s;
         label_writes := label_writes s |}.

(** [clear_data] (lines 945 to 954): the sessions are dropped when the
    user confirms, the device is connected and writing the command did not
    raise. *)
Definition clear_data (confirmed connected written : bool) (s : State)
  : State :=
  if confirmed && connected && written then
    {| is_labeling := is_labeling s;
       current_label := current_label s;
       labeling_start_time := labeling_start_time s;
       labeling_duration := labeling_duration s;
       labeling_buffer := labeling_buffer s;
       labeling_progress := labeling_progress s;
       training_data := [];
       progress_fill := progress_fill s;
       label_writes := label_writes s |}
  else s.

(** The labeling states of a session: buttons and progress updates at any
    times, whatever the session shows. *)
Inductive reachable : State -> Prop :=
  | reach_init : reachable init
  | reach_start connected l started now later written a s :
      reachable s ->
      reachable
        (state_of (start_labeling connected l started now later written a s))
  | reach_update now later written a s :
      reachable s ->
      reachable (state_of (update_labeling_progress now later written a s))
  | reach_clear confirmed connected written s :
      reachable s ->
      reachable (clear_data confirmed connected written s).

(** What a recorded session looks like. *)
Definition session_sound (r : Session) : Prop :=
  samples_count r = List.length (raw_samples r)
  /\ (0 < samples_count r)%nat
  /\ label r <> None
  /\ avg_features r <> None.

(** What the labeling keeps between calls. *)
Definition state_ok (s : State) : Prop :=
  labeling_duration s = 5
  /\ (is_labeling s = false ->
      labeling_buffer s = [] /\ current_label s = None
      /\ labeling_progress s = 0 /\ progress_fill s = 0%Z)
  /\ (is_labeling s = true -> current_label s <> None)
  /\ Forall session_sound (training_data s)
  /\ (progress_fill s < 100)%Z
  /\ labeling_progress s <= 1.

End Labeling.

(** The sample that a progress update adds, if features are there. *)
Definition collected (now : Q) (a : AdvancedGui.App) (s : Labeling.State)
  : list Labeling.Sample :=
  Labeling.labeling_buffer s
  ++ match AdvancedGui.current_features a with
     | Some f =>
         [{| Labeling.features := f;
             Labeling.timestamp := now;
             Labeling.classification :=
               current_classification (AdvancedGui.gui a);
             Labeling.confidence := current_confidence (AdvancedGui.gui a) |}]
     | None => []
     end.

(** ** Stand-ins for the examples *)

(** Python's builtins on the strings of the examples: these have no outer
    white space, so [strip] returns them; [float] reads the decimals of the
    TEST button's lines and [int] the counts of a STATUS line. *)
Definition example_builtins : Builtins :=
  {| py_strip := fun s => s;
     py_float := fun s =>
       if String.eqb s "0.85" then Some 0.85%float
       else if String.eqb s "0.05" then Some 0.05%float
       else if String.eqb s "0.8" then Some 0.8%float
       else if String.eqb s "0.12" then Some 0.12%float
       else if String.eqb s "0.08" then Some 0.08%float
       else if String.eqb s "85.2" then Some 85.2%float
       else if String.eqb s "95.1" then Some 95.1%float
       else if String.eqb s "0.15" then Some 0.15%float
       else if String.eqb s "0.22" then Some 0.22%float
       else None;
     py_int := fun s =>
       if String.eqb s "1000" then Some 1000%Z
       else if String.eqb s "512" then Some 512%Z
       else None |}.

(** A FEATURES line in the noise logger's format: eight numbers, then the
    label and its confidence. *)
Definition labelled_features_line : string :=
  "FEATURES:0.05,0.8,0.12,0.08,85.2,95.1,0.15,0.22,elephant,0.85".

(** A labeling of "elephant" started at time 0 in a fresh session, before
    any features arrived. *)
Definition labeling_from_0 : Labeling.State :=
  Labeling.state_of
    (Labeling.start_labeling true "elephant" 0 0 0 true AdvancedGui.init
                             Labeling.init).

(** ** The simple GUI's update with the statements that can raise

    The debounce step above keeps the tests and the assignments of
    [update_detection_display] and gives a plain state.  Here the same
    method (simple_elephant_gui.py, lines 464 to 529) is embedded with every
    statement that Python can refuse: the attributes hold Python values of
    any of five types, a comparison or a difference on a value that is not
    a number raises [TypeError], the format [.1f] raises on a string and on
    [None], the conversion of an integer to a float raises [OverflowError]
    beyond the range of binary64, and a call on a widget raises [TclError]
    once the window is destroyed.  A result is the state on return or the
    exception that leaves the method.  Time stamps are binary64 values
    here, as [time.time()] returns them. *)

(** The tag of a detection state, as the source writes it. *)
Definition state_name (d : DetectionState) : string :=
  match d with
  | no_elephant => "no_elephant"
  | elephant_low => "elephant_low"
  | elephant_medium => "elephant_medium"
  | elephant_high => "elephant_high"
  end.

Module Interp.

Inductive PyValue : Type :=
  | PyNone
  | PyBool (b : bool)
  | PyInt (z : Z)
  | PyFloat (f : float)
  | PyStr (s : string).

Inductive PyExn : Set :=
  | TypeError
  | ValueError
  | OverflowError
  | TclError.

(** The outcome of a statement: it returns a value or an exception leaves
    it. *)
Inductive Py (A : Type) : Type :=
  | Returns (a : A)
  | Raises (e : PyExn).

Arguments Returns {A} a.
Arguments Raises {A} e.

Definition bind {A B : Type} (m : Py A) (k : A -> Py B) : Py B :=
  match m with
  | Returns a => k a
  | Raises e => Raises e
  end.

Notation "x <- m ;; k" := (bind m (fun x => k))
  (at level 61, m at next level, right associativity).

(** *** Python's operations on values *)

(** The numbers: [bool] is a subclass of [int]. *)
Inductive Number : Type :=
  | NInt (z : Z)
  | NFloat (f : float).

Definition as_number (v : PyValue) : option Number :=
  match v with
  | PyBool b => Some (NInt (if b then 1 else 0))
  | PyInt z => Some (NInt z)
  | PyFloat f => Some (NFloat f)
  | PyNone | PyStr _ => None
  end.

(** An integer as a float: the nearest binary64 value, ties to even, and
    [OverflowError] when that is beyond the largest finite one. *)
Definition float_of_int (z : Z) : Py float :=
  let f := SF2Prim (binary_normalize prec emax z 0 false) in
  if is_infinity f then Raises OverflowError else Returns f.

Definition to_float (n : Number) : Py float :=
  match n with
  | NInt z => float_of_int z
  | NFloat f => Returns f
  end.

(** Python compares an integer with a float by their exact values; a NaN
    is not ordered. *)
Definition compare_int_float (z : Z) (f : float) : option comparison :=
  match Prim2SF f with
  | S754_nan => None
  | S754_infinity negative => Some (if negative then Gt else Lt)
  | S754_zero _ => Some (z ?= 0)%Z
  | S754_finite negative m e =>
      let v := if negative then Z.neg m else Z.pos m in
      Some (if (0 <=? e)%Z then (z ?= v * 2 ^ e)%Z
            else (z * 2 ^ (- e) ?= v)%Z)
  end.

Definition num_lt (x y : Number) : bool :=
  match x, y with
  | NInt a, NInt b => (a <? b)%Z
  | NFloat a, NFloat b => (a <? b)%float
  | NInt a, NFloat b =>
      match compare_int_float a b with Some Lt => true | _ => false end
  | NFloat a, NInt b =>
      match compare_int_float b a with Some Gt => true | _ => false end
  end.

Definition num_le (x y : Number) : bool :=
  match x, y with
  | NInt a, NInt b => (a <=? b)%Z
  | NFloat a, NFloat b => (a <=? b)%float
  | NInt a, NFloat b =>
      match compare_int_float a b with
      | Some Lt | Some Eq => true
      | _ => false
      end
  | NFloat a, NInt b =>
      match compare_int_float b a with
      | Some Gt | Some Eq => true
      | _ => false
      end
  end.

Definition num_eq (x y : Number) : bool :=
  match x, y with
  | NInt a, NInt b => (a =? b)%Z
  | NFloat a, NFloat b => (a =? b)%float
  | NInt a, NFloat b | NFloat b, NInt a =>
      match compare_int_float a b with Some Eq => true | _ => false end
  end.

(** [a == b]: never raises; values of unrelated types are different. *)
Definition py_eq (a b : PyValue) : bool :=
  match as_number a, as_number b with
  | Some x, Some y => num_eq x y
  | _, _ =>
      match a, b with
      | PyStr s, PyStr t => String.eqb s t
      | PyNone, PyNone => true
      | _, _ => false
      end
  end.

(** The truth value taken by [not], [and] and [if]. *)
Definition truthy (v : PyValue) : bool :=
  match v with
  | PyNone => false
  | PyBool b => b
  | PyInt z => negb (z =? 0)%Z
  | PyFloat f => negb (f =? 0)%float
  | PyStr s => negb (String.eqb s "")
  end.

(** [a > b] and [a >= b]: between numbers and between strings. *)
Definition py_gt (a b : PyValue) : Py bool :=
  match as_number a, as_number b with
  | Some x, Some y => Returns (num_lt y x)
  | _, _ =>
      match a, b with
      | PyStr s, PyStr t => Returns (String.ltb t s)
      | _, _ => Raises TypeError
      end
  end.

Definition py_ge (a b : PyValue) : Py bool :=
  match as_number a, as_number b with
  | Some x, Some y => Returns (num_le y x)
  | _, _ =>
      match a, b with
      | PyStr s, PyStr t => Returns (String.leb t s)
      | _, _ => Raises TypeError
      end
  end.

(** [a - b]: between numbers only; an integer beside a float is converted
    first. *)
Definition py_sub (a b : PyValue) : Py PyValue :=
  match as_number a, as_number b with
  | Some (NInt x), Some (NInt y) => Returns (PyInt (x - y))
  | Some x, Some y =>
      x' <- to_float x ;;
      y' <- to_float y ;;
      Returns (PyFloat (x' - y'))
  | _, _ => Raises TypeError
  end.

Fixpoint repeat_string (s : string) (n : nat) : string :=
  match n with
  | O => ""
  | S n' => (s ++ repeat_string s n')%string
  end.

(** [v*100]: a product of numbers, or a string a hundred times over. *)
Definition times_100 (v : PyValue) : Py PyValue :=
  match v with
  | PyNone => Raises TypeError
  | PyBool b => Returns (PyInt ((if b then 1 else 0) * 100))
  | PyInt z => Returns (PyInt (z * 100))
  | PyFloat f => Returns (PyFloat (f * 100))
  | PyStr s => Returns (PyStr (repeat_string s 100))
  end.

(** [max(0, v)]: [v] when [v > 0], else the integer 0. *)
Definition max_0 (v : PyValue) : Py PyValue :=
  greater <- py_gt v (PyInt 0) ;;
  Returns (if greater then v else PyInt 0).

(** The format [{v:.1f}]: the float whose decimal is printed.  A number
    is converted to a float; a string has no format code [f] and [None]
    takes no format at all. *)
Definition format_1f (v : PyValue) : Py float :=
  match v with
  | PyNone => Raises TypeError
  | PyStr _ => Raises ValueError
  | PyBool b => float_of_int (if b then 1 else 0)
  | PyInt z => float_of_int z
  | PyFloat f => Returns f
  end.

(** *** The state *)

(** The widgets configured by the method: whether the window still
    exists, the text of [detection_label], the calls of [root.bell()], and
    what the three other labels show: the value after "Classification: ",
    the float printed in "Confidence: ...%" and the one printed in
    "Detection active: ...s remaining"; [None] is the text given by
    [setup_ui], which for [timer_label] is the empty text that the method
    sets again. *)
Record Widgets : Type := mkWidgets {
  root_exists : bool;
  detection_label : LabelText;
  bells : nat;
  classification_label : option PyValue;
  confidence_label : option float;
  timer_label : option float
}.

(** The attributes read and written by the method, each a Python value,
    and the widgets. *)
Record App : Type := mkApp {
  current_classification : PyValue;
  current_confidence : PyValue;
  detection_timer_start : PyValue;
  detection_timer_duration : PyValue;
  last_detection_state : PyValue;
  detection_locked : PyValue;
  widgets : Widgets
}.

(** [__init__] (lines 34 to 42) and [setup_ui]. *)
Definition init : App :=
  {| current_classification := PyStr "not_elephant";
     current_confidence := PyFloat 0;
     detection_timer_start := PyInt 0;
     detection_timer_duration := PyFloat 5;
     last_detection_state := PyStr "no_elephant";
     detection_locked := PyBool false;
     widgets :=
       {| root_exists := true;
          detection_label := text_initializing;
          bells := 0;
          classification_label := None;
          confidence_label := None;
          timer_label := None |} |}.

Definition set_detection_timer_start (v : PyValue) (a : App) : App :=
  {| current_classification := current_classification a;
     current_confidence := current_confidence a;
     detection_timer_start := v;
     detection_timer_duration := detection_timer_duration a;
     last_detection_state := last_detection_state a;
     detection_locked := detection_locked a;
     widgets := widgets a |}.

Definition set_detection_locked (v : PyValue) (a : App) : App :=
  {| current_classification := current_classification a;
     current_confidence := current_confidence a;
     detection_timer_start := detection_timer_start a;
     detection_timer_duration := detection_timer_duration a;
     last_detection_state := last_detection_state a;
     detection_locked := v;
     widgets := widgets a |}.

Definition set_last_detection_state (v : PyValue) (a : App) : App :=
  {| current_classification := current_classification a;
     current_confidence := current_confidence a;
     detection_timer_start := detection_timer_start a;
     detection_timer_duration := detection_timer_duration a;
     last_detection_state := v;
     detection_locked := detection_locked a;
     widgets := widgets a |}.

(** A call on a widget, [w.config(...)] or [root.bell()]: Tk refuses it
    with [TclError] when the window is gone. *)
Definition tk_call (change : Widgets -> Widgets) (a : App) : Py App :=
  if root_exists (widgets a) then
    Returns {| current_classification := current_classification a;
               current_confidence := current_confidence a;
               detection_timer_start := detection_timer_start a;
               detection_timer_duration := detection_timer_duration a;
               last_detection_state := last_detection_state a;
               detection_locked := detection_locked a;
               widgets := change (widgets a) |}
  else Raises TclError.

Definition config_detection_label (t : LabelText) : App -> Py App :=
  tk_call (fun w =>
    {| root_exists := root_exists w;
       detection_label := t;
       bells := bells w;
       classification_label := classification_label w;
       confidence_label := confidence_label w;
       timer_label := timer_label w |}).

Definition bell : App -> Py App :=
  tk_call (fun w =>
    {| root_exists := root_exists w;
       detection_label := detection_label w;
       bells := S (bells w);
       classification_label := classification_label w;
       confidence_label := confidence_label w;
       timer_label := timer_label w |}).

Definition config_classification_label (v : PyValue) : App -> Py App :=
  tk_call (fun w =>
    {| root_exists := root_exists w;
       detection_label := detection_label w;
       bells := bells w;
       classification_label := Some v;
       confidence_label := confidence_label w;
       timer_label := timer_label w |}).

Definition config_confidence_label (shown : float) : App -> Py App :=
  tk_call (fun w =>
    {| root_exists := root_exists w;
       detection_label := detection_label w;
       bells := bells w;
       classification_label := classification_label w;
       confidence_label := Some shown;
       timer_label := timer_label w |}).

Definition config_timer_label (shown : option float) : App -> Py App :=
  tk_call (fun w =>
    {| root_exists := root_exists w;
       detection_label := detection_label w;
       bells := bells w;
       classification_label := classification_label w;
       confidence_label := confidence_label w;
       timer_label := shown |}).

(** *** The method *)

(** "Determine current detection state" (lines 469 to 477): the local
    [new_detection_state], a string. *)
Definition new_detection_state (a : App) : Py string :=
  if py_eq (current_classification a) (PyStr "elephant") then
    high <- py_gt (current_confidence a) (PyFloat 0.5) ;;
    if high then Returns "elephant_high"
    else
      medium <- py_gt (current_confidence a) (PyFloat 0.3) ;;
      if medium then Returns "elephant_medium"
      else Returns "elephant_low"
  else Returns "no_elephant".

(** Lines 479 to 518: the three branches on the lock. *)
Definition update_lock (current_time : float) (new : string) (a : App)
  : Py App :=
  if negb (String.eqb new "no_elephant")
     && (negb (truthy (detection_locked a))
         || negb (py_eq (PyStr new) (last_detection_state a)))
  then
    let a1 :=
      set_last_detection_state (PyStr new)
        (set_detection_locked (PyBool true)
           (set_detection_timer_start (PyFloat current_time) a)) in
    if String.eqb new "elephant_high" then
      a2 <- config_detection_label text_elephant_detected a1 ;;
      bell a2
    else if String.eqb new "elephant_medium" then
      config_detection_label text_possible_elephant a1
    else config_detection_label text_low_confidence a1
  else if truthy (detection_locked a) then
    elapsed <- py_sub (PyFloat current_time) (detection_timer_start a) ;;
    over <- py_ge elapsed (detection_timer_duration a) ;;
    if over then
      let a1 := set_detection_locked (PyBool false) a in
      if String.eqb new "no_elephant" then
        a2 <- config_detection_label text_no_elephant a1 ;;
        Returns (set_last_detection_state (PyStr "no_elephant") a2)
      else
        Returns
          (set_last_detection_state (PyStr new)
             (set_detection_locked (PyBool true)
                (set_detection_timer_start (PyFloat current_time) a1)))
    else Returns a
  else if negb (truthy (detection_locked a)) && String.eqb new "no_elephant"
  then
    a1 <- config_detection_label text_no_elephant a ;;
    Returns (set_last_detection_state (PyStr "no_elephant") a1)
  else Returns a.

(** Lines 520 to 529: the three labels under the detection. *)
Definition update_labels (current_time : float) (a : App) : Py App :=
  a1 <- config_classification_label (current_classification a) a ;;
  percent <- times_100 (current_confidence a1) ;;
  shown <- format_1f percent ;;
  a2 <- config_confidence_label shown a1 ;;
  if truthy (detection_locked a2)
     && negb (py_eq (last_detection_state a2) (PyStr "no_elephant"))
  then
    since <- py_sub (PyFloat current_time) (detection_timer_start a2) ;;
    difference <- py_sub (detection_timer_duration a2) since ;;
    remaining <- max_0 difference ;;
    shown_remaining <- format_1f remaining ;;
    config_timer_label (Some shown_remaining) a2
  else config_timer_label None a2.

(** [update_detection_display] with [time.time()] returning
    [current_time]. *)
Definition update_detection_display (current_time : float) (a : App)
  : Py App :=
  new <- new_detection_state a ;;
  a1 <- update_lock current_time new a ;;
  update_labels current_time a1.

(** The assignments of [parse_classification] (lines 429 and 430): a
    stripped string and the float returned by [float()]. *)
Definition store (label : string) (confidence : float) (a : App) : App :=
  {| current_classification := PyStr label;
     current_confidence := PyFloat confidence;
     detection_timer_start := detection_timer_start a;
     detection_timer_duration := detection_timer_duration a;
     last_detection_state := last_detection_state a;
     detection_locked := detection_locked a;
     widgets := widgets a |}.

(** [observe label confidence now]: one decoded classification line
    handled when the clock reads [now]. *)
Definition observe (label : string) (confidence : float) (now : float)
    (a : App) : Py App :=
  update_detection_display now (store label confidence a).

(** The call made on a turn of the event loop (lines 380 and 381). *)
Definition process_data_queue_tick (now : float) (a : App) : Py App :=
  if truthy (detection_locked a) then update_detection_display now a
  else Returns a.

(** What reaches the method in a session: decoded lines and turns of the
    event loop. *)
Inductive Event : Type :=
  | Line (label : string) (confidence : float) (now : float)
  | Tick (now : float).

Definition handle (e : Event) (a : App) : Py App :=
  match e with
  | Line l c now => observe l c now a
  | Tick now => process_data_queue_tick now a
  end.

Fixpoint run (events : list Event) (a : App) : Py App :=
  match events with
  | [] => Returns a
  | e :: rest => a' <- handle e a ;; run rest a'
  end.

(** The types that the constructor and [parse_classification] give to the
    attributes: a string, a float, the integer 0 or a float, a float, one of
    the four tags, a boolean. *)
Definition is_state_name (s : string) : bool :=
  String.eqb s "no_elephant" || String.eqb s "elephant_low"
  || String.eqb s "elephant_medium" || String.eqb s "elephant_high".

Definition well_typed (a : App) : bool :=
  match current_classification a, current_confidence a,
        detection_timer_start a, detection_timer_duration a,
        last_detection_state a, detection_locked a with
  | PyStr _, PyFloat _, PyInt 0, PyFloat _, PyStr s, PyBool _
  | PyStr _, PyFloat _, PyFloat _, PyFloat _, PyStr s, PyBool _ =>
      is_state_name s
  | _, _, _, _, _, _ => false
  end.

End Interp.

(** A session whose [current_confidence] was given the text "0.9" instead
    of a float, and one whose window is destroyed. *)
Definition text_confidence : Interp.App :=
  {| Interp.current_classification := Interp.PyStr "elephant";
     Interp.current_confidence := Interp.PyStr "0.9";
     Interp.detection_timer_start := Interp.PyInt 0;
     Interp.detection_timer_duration := Interp.PyFloat 5;
     Interp.last_detection_state := Interp.PyStr "no_elephant";
     Interp.detection_locked := Interp.PyBool false;
     Interp.widgets := Interp.widgets Interp.init |}.

Definition window_destroyed : Interp.App :=
  {| Interp.current_classification := Interp.PyStr "not_elephant";
     Interp.current_confidence := Interp.PyFloat 0;
     Interp.detection_timer_start := Interp.PyInt 0;
     Interp.detection_timer_duration := Interp.PyFloat 5;
     Interp.last_detection_state := Interp.PyStr "no_elephant";
     Interp.detection_locked := Interp.PyBool false;
     Interp.widgets :=
       {| Interp.root_exists := false;
          Interp.detection_label := text_initializing;
          Interp.bells := 0;
          Interp.classification_label := None;
          Interp.confidence_label := None;
          Interp.timer_label := None |} |}.

(** * Properties *)

(** ** Order facts on binary64 values *)

Lemma SFleb_not_SFltb (a b : spec_float) :
  SFleb a b = true -> SFltb b a = false.
Proof.
  unfold SFleb, SFltb.
  destruct a as [sa| sa| |sa ma ea], b as [sb| sb| |sb mb eb];
    simpl; try destruct sa; try destruct sb; simpl; try congruence.
  all: change (PosDef.Pos.compare_cont Eq ?p ?q) with (Pos.compare p q).
  all: rewrite (Z.compare_antisym ea eb), (Pos.compare_antisym ma mb).
  all: destruct (Z.compare ea eb); simpl; try congruence.
  all: destruct (Pos.compare ma mb); simpl; congruence.
Qed.

Lemma SFleb_SFltb_trans (a b c : spec_float) :
  SFleb a b = true -> SFltb b c = true -> SFltb a c = true.
Proof.
  unfold SFleb, SFltb.
  destruct a as [sa| sa| |sa ma ea], b as [sb| sb| |sb mb eb],
           c as [sc| sc| |sc mc ec];
    simpl; try destruct sa; try destruct sb; try destruct sc; simpl;
    try congruence.
  all: change (PosDef.Pos.compare_cont Eq ?p ?q) with (Pos.compare p q).
  all: destruct (Z.compare_spec ea eb), (Z.compare_spec eb ec),
         (Z.compare_spec ea ec); simpl; try congruence; try lia.
  all: destruct (Pos.compare_spec ma mb), (Pos.compare_spec mb mc),
         (Pos.compare_spec ma mc); simpl; try congruence; try lia.
Qed.

Lemma float_le_not_lt (x y : float) :
  (x <=? y)%float = true -> (y <? x)%float = false.
Proof. rewrite leb_spec, ltb_spec. apply SFleb_not_SFltb. Qed.

Lemma float_lt_le (x y : float) :
  (x <? y)%float = true -> (x <=? y)%float = true.
Proof.
  rewrite leb_spec, ltb_spec. unfold SFleb, SFltb.
  destruct (SFcompare (Prim2SF x) (Prim2SF y)) as [[ | | ]|]; congruence.
Qed.

Lemma float_le_lt_not_lt (x y z : float) :
  (x <=? y)%float = true -> (y <? z)%float = true -> (z <? x)%float = false.
Proof.
  intros Hxy Hyz. apply float_le_not_lt, float_lt_le.
  rewrite leb_spec in Hxy. rewrite ltb_spec in Hyz |- *.
  exact (SFleb_SFltb_trans _ _ _ Hxy Hyz).
Qed.

(** ** Facts on the tags and on the elapsed-time test *)

Lemma DetectionState_eqb_eq (a b : DetectionState) :
  DetectionState_eqb a b = true <-> a = b.
Proof. destruct a, b; simpl; split; congruence. Qed.

Lemma DetectionState_eqb_neq (a b : DetectionState) :
  DetectionState_eqb a b = false <-> a <> b.
Proof. destruct a, b; simpl; split; congruence. Qed.

Lemma DetectionState_eqb_refl (a : DetectionState) :
  DetectionState_eqb a a = true.
Proof. now destruct a. Qed.

Lemma elapsed_reached (now start duration : Q) :
  Qle_bool duration (now - start) = true <-> start + duration <= now.
Proof. rewrite Qle_bool_iff. split; intro H; lra. Qed.

Lemma elapsed_short (now start duration : Q) :
  Qle_bool duration (now - start) = false <-> now < start + duration.
Proof.
  split; intro H.
  - apply Qnot_le_lt. intro Hle.
    apply elapsed_reached in Hle. congruence.
  - destruct (Qle_bool duration (now - start)) eqn:E; [|reflexivity].
    apply elapsed_reached in E. lra.
Qed.

(** Case analysis on every test met in the goal, outermost first. *)
Ltac case_tests :=
  repeat match goal with
         | |- context [if ?b then _ else _] => destruct b eqn:?
         end.

(** ** The outcomes of one update *)

Section Branches.

Variables (now : Q) (g : Gui).

Let new := new_detection_state (current_classification g)
                               (current_confidence g).

(** A detection period starts: first branch of the method. *)
Lemma update_starts :
  new <> no_elephant ->
  detection_locked g = false \/ new <> last_detection_state g ->
  update_detection_display now g =
    {| current_classification := current_classification g;
       current_confidence := current_confidence g;
       detection_timer_start := now;
       detection_timer_duration := detection_timer_duration g;
       last_detection_state := new;
       detection_locked := true |}.
Proof.
  intros Hnew Hor. unfold update_detection_display. fold new.
  apply DetectionState_eqb_neq in Hnew. rewrite Hnew. simpl.
  destruct Hor as [Hl | Hne].
  - rewrite Hl. reflexivity.
  - apply DetectionState_eqb_neq in Hne. rewrite Hne.
    rewrite orb_true_r. reflexivity.
Qed.

(** The period is running and nothing new is announced: no change. *)
Lemma update_holds :
  detection_locked g = true ->
  new = no_elephant \/ new = last_detection_state g ->
  now < locked_until g ->
  update_detection_display now g = g.
Proof.
  intros Hl Hor Hlt. unfold update_detection_display. fold new.
  apply elapsed_short in Hlt. rewrite Hl, Hlt. simpl.
  destruct Hor as [-> | ->]; [reflexivity|].
  rewrite DetectionState_eqb_refl, andb_false_r. reflexivity.
Qed.

(** The period is over and the detection is gone: release. *)
Lemma update_releases :
  detection_locked g = true ->
  new = no_elephant ->
  locked_until g <= now ->
  update_detection_display now g =
    {| current_classification := current_classification g;
       current_confidence := current_confidence g;
       detection_timer_start := detection_timer_start g;
       detection_timer_duration := detection_timer_duration g;
       last_detection_state := no_elephant;
       detection_locked := false |}.
Proof.
  intros Hl Hnew Hle. unfold update_detection_display. fold new.
  apply elapsed_reached in Hle. rewrite Hl, Hle, Hnew. reflexivity.
Qed.

(** The period is over and the same tier is still announced: a new period
    at that tier. *)
Lemma update_relocks :
  detection_locked g = true ->
  new <> no_elephant ->
  new = last_detection_state g ->
  locked_until g <= now ->
  update_detection_display now g =
    {| current_classification := current_classification g;
       current_confidence := current_confidence g;
       detection_timer_start := now;
       detection_timer_duration := detection_timer_duration g;
       last_detection_state := new;
       detection_locked := true |}.
Proof.
  intros Hl Hnew Hsame Hle. unfold update_detection_display. fold new.
  apply elapsed_reached in Hle.
  apply DetectionState_eqb_neq in Hnew.
  rewrite Hl, Hle, Hnew. rewrite <- Hsame.
  rewrite DetectionState_eqb_refl. reflexivity.
Qed.

(** No period and no detection: the fourth branch. *)
Lemma update_idles :
  detection_locked g = false ->
  new = no_elephant ->
  update_detection_display now g =
    {| current_classification := current_classification g;
       current_confidence := current_confidence g;
       detection_timer_start := detection_timer_start g;
       detection_timer_duration := detection_timer_duration g;
       last_detection_state := no_elephant;
       detection_locked := false |}.
Proof.
  intros Hl Hnew. unfold update_detection_display. fold new.
  rewrite Hl, Hnew. reflexivity.
Qed.

End Branches.

(** The duration is set by the constructor and never assigned again. *)
Lemma update_keeps_duration (now : Q) (g : Gui) :
  detection_timer_duration (update_detection_display now g)
  = detection_timer_duration g.
Proof.
  unfold update_detection_display.
  case_tests; reflexivity.
Qed.

(** The timer is left alone or set to the time of the call. *)
Lemma update_timer_cases (now : Q) (g : Gui) :
  detection_timer_start (update_detection_display now g)
  = detection_timer_start g
  \/ (detection_timer_start (update_detection_display now g) = now
      /\ last_detection_state (update_detection_display now g) <> no_elephant).
Proof.
  unfold update_detection_display.
  destruct (DetectionState_eqb _ no_elephant) eqn:E; simpl.
  - case_tests; auto.
  - apply DetectionState_eqb_neq in E.
    case_tests; simpl; auto.
Qed.

(** What one decoded line does, branch by branch, in the words of
    [observe]. *)

Lemma observe_fst (l : string) (c : float) (now : Q) (g : Gui) :
  fst (observe l c now g) = update_detection_display now (store l c g).
Proof. reflexivity. Qed.

Lemma observe_snd (l : string) (c : float) (now : Q) (g : Gui) :
  snd (observe l c now g)
  = negb (DetectionState_eqb (tier g) (tier (fst (observe l c now g)))).
Proof. reflexivity. Qed.

Lemma consistent_locked (g : Gui) :
  consistent g -> tier g <> no_elephant -> detection_locked g = true.
Proof. intros Hc Ht. apply Hc. exact Ht. Qed.

Lemma observe_starts (l : string) (c : float) (now : Q) (g : Gui) :
  new_detection_state l c <> no_elephant ->
  tier g = no_elephant \/ new_detection_state l c <> tier g ->
  fst (observe l c now g) =
    {| current_classification := l;
       current_confidence := c;
       detection_timer_start := now;
       detection_timer_duration := detection_timer_duration g;
       last_detection_state := new_detection_state l c;
       detection_locked := true |}.
Proof.
  intros Hnew Hor. rewrite observe_fst.
  rewrite update_starts; simpl; auto.
  right. destruct Hor as [Hnone | Hne]; [|exact Hne].
  unfold tier in Hnone. congruence.
Qed.

Lemma observe_holds (l : string) (c : float) (now : Q) (g : Gui) :
  detection_locked g = true ->
  new_detection_state l c = no_elephant \/ new_detection_state l c = tier g ->
  now < locked_until g ->
  fst (observe l c now g) = store l c g.
Proof.
  intros Hl Hor Hlt. rewrite observe_fst.
  apply update_holds; simpl; auto.
Qed.

Lemma observe_releases (l : string) (c : float) (now : Q) (g : Gui) :
  detection_locked g = true ->
  new_detection_state l c = no_elephant ->
  locked_until g <= now ->
  fst (observe l c now g) =
    {| current_classification := l;
       current_confidence := c;
       detection_timer_start := detection_timer_start g;
       detection_timer_duration := detection_timer_duration g;
       last_detection_state := no_elephant;
       detection_locked := false |}.
Proof.
  intros Hl Hnew Hle. rewrite observe_fst.
  rewrite update_releases; simpl; auto.
Qed.

Lemma observe_relocks (l : string) (c : float) (now : Q) (g : Gui) :
  detection_locked g = true ->
  new_detection_state l c <> no_elephant ->
  new_detection_state l c = tier g ->
  locked_until g <= now ->
  fst (observe l c now g) =
    {| current_classification := l;
       current_confidence := c;
       detection_timer_start := now;
       detection_timer_duration := detection_timer_duration g;
       last_detection_state := new_detection_state l c;
       detection_locked := true |}.
Proof.
  intros Hl Hnew Hsame Hle. rewrite observe_fst.
  rewrite update_relocks; simpl; auto.
Qed.

(** The tiers of the observations used in the scenarios of the
    specification. *)
Lemma tier_of_085 : new_detection_state "elephant" 0.85 = elephant_high.
Proof. reflexivity. Qed.

Lemma tier_of_035 : new_detection_state "elephant" 0.35 = elephant_medium.
Proof. reflexivity. Qed.

(** A first detection at confidence 0.85, from a state that shows none. *)
Lemma observe_high_from_none (t0 : Q) (g : Gui) :
  tier g = no_elephant ->
  fst (observe "elephant" 0.85 t0 g) =
    {| current_classification := "elephant";
       current_confidence := 0.85;
       detection_timer_start := t0;
       detection_timer_duration := detection_timer_duration g;
       last_detection_state := elephant_high;
       detection_locked := true |}.
Proof.
  intro Hnone. rewrite observe_starts.
  - rewrite tier_of_085. reflexivity.
  - rewrite tier_of_085. discriminate.
  - left. exact Hnone.
Qed.

Lemma high_at_100_consistent : consistent high_at_100.
Proof. split; intro H; [discriminate | reflexivity]. Qed.

(** ** Debounce inside the dwell window *)

(** C1, as stated, at an explicit input: a session that latched HIGH at
    time 100 is locked until 105; a line ("elephant", 0.35) handled at time
    101, inside the window, changes the tier to MEDIUM, restarts the window
    and is a transition. *)
Lemma debounce_preempted_inside_window :
  consistent high_at_100
  /\ tier high_at_100 = elephant_high
  /\ 101 < locked_until high_at_100
  /\ tier (fst (observe "elephant" 0.35 101 high_at_100)) = elephant_medium
  /\ ~ locked_until (fst (observe "elephant" 0.35 101 high_at_100))
       == locked_until high_at_100
  /\ snd (observe "elephant" 0.35 101 high_at_100) = true.
Proof.
  split; [exact high_at_100_consistent|].
  repeat split; try reflexivity.
  vm_compute. discriminate.
Qed.

(** C1 (amended): in a state whose tier is not NONE, an observation that
    arrives while the dwell window is active ([now < locked_until]) and
    whose candidate tier is NONE or the current tier leaves [tier],
    [active_since] and [locked_until] unchanged and is not a transition. *)
Theorem debounce_within_dwell
    (g : Gui) (l : string) (c : float) (now : Q) :
  consistent g ->
  tier g <> no_elephant ->
  now < locked_until g ->
  new_detection_state l c = no_elephant \/ new_detection_state l c = tier g ->
  tier (fst (observe l c now g)) = tier g
  /\ active_since (fst (observe l c now g)) = active_since g
  /\ locked_until (fst (observe l c now g)) = locked_until g
  /\ detection_locked (fst (observe l c now g)) = true
  /\ snd (observe l c now g) = false.
Proof.
  intros Hc Ht Hlt Hcand.
  pose proof (consistent_locked g Hc Ht) as Hl.
  rewrite observe_snd, (observe_holds l c now g Hl Hcand Hlt).
  unfold tier, active_since, locked_until; simpl.
  rewrite DetectionState_eqb_refl. auto.
Qed.

Lemma debounce_within_dwell_witness :
  consistent high_at_100
  /\ tier high_at_100 <> no_elephant
  /\ 102 < locked_until high_at_100
  /\ tier (fst (observe "not_elephant" 0.1 102 high_at_100)) = elephant_high
  /\ snd (observe "not_elephant" 0.1 102 high_at_100) = false.
Proof.
  assert (Hc : consistent high_at_100) by exact high_at_100_consistent.
  assert (Ht : tier high_at_100 <> no_elephant) by discriminate.
  assert (Hlt : 102 < locked_until high_at_100) by reflexivity.
  destruct (debounce_within_dwell high_at_100 "not_elephant" 0.1 102
              Hc Ht Hlt (or_introl eq_refl)) as (H1 & _ & _ & _ & H5).
  exact (conj Hc (conj Ht (conj Hlt (conj H1 H5)))).
Defined.

(** ** Release after the dwell window *)

Lemma release_general (g : Gui) (l : string) (c : float) (now : Q) :
  consistent g ->
  tier g <> no_elephant ->
  locked_until g <= now ->
  new_detection_state l c = no_elephant ->
  tier (fst (observe l c now g)) = no_elephant
  /\ detection_locked (fst (observe l c now g)) = false
  /\ snd (observe l c now g) = true.
Proof.
  intros Hc Ht Hle Hnone.
  pose proof (consistent_locked g Hc Ht) as Hl.
  rewrite observe_snd, (observe_releases l c now g Hl Hnone Hle).
  unfold tier in *; simpl. repeat split.
  apply negb_true_iff, DetectionState_eqb_neq. exact Ht.
Qed.

Lemma release_scenario (g : Gui) (t0 : Q) :
  tier g = no_elephant ->
  detection_timer_duration g == 5 ->
  tier (fst (observe "elephant" 0.85 t0 g)) = elephant_high
  /\ tier (fst (observe "not_elephant" 0.1 (t0 + 5.1)
                  (fst (observe "elephant" 0.85 t0 g)))) = no_elephant
  /\ snd (observe "not_elephant" 0.1 (t0 + 5.1)
            (fst (observe "elephant" 0.85 t0 g))) = true.
Proof.
  intros Hnone Hd. rewrite (observe_high_from_none t0 g Hnone).
  split; [reflexivity|].
  match goal with
  | |- context [observe _ _ _ ?g1] =>
      destruct (release_general g1 "not_elephant" 0.1 (t0 + 5.1))
        as (H1 & _ & H3)
  end; auto.
  - split; intro H; [discriminate | reflexivity].
  - discriminate.
  - unfold locked_until; simpl. lra.
Qed.

(** C2: in a state whose tier is not NONE, an observation whose candidate
    tier is NONE and that arrives once the dwell window has elapsed
    ([now >= locked_until]) sets the tier to NONE and is a transition; in
    particular a detection at confidence 0.85 at [t0] followed by a negative
    observation at [t0 + 5.1] ends with tier NONE and a transition. *)
Theorem release_after_dwell :
  (forall (g : Gui) (l : string) (c : float) (now : Q),
      consistent g ->
      tier g <> no_elephant ->
      locked_until g <= now ->
      new_detection_state l c = no_elephant ->
      tier (fst (observe l c now g)) = no_elephant
      /\ snd (observe l c now g) = true)
  /\
  (forall (g : Gui) (t0 : Q),
      tier g = no_elephant ->
      detection_timer_duration g == 5 ->
      tier (fst (observe "elephant" 0.85 t0 g)) = elephant_high
      /\ tier (fst (observe "not_elephant" 0.1 (t0 + 5.1)
                      (fst (observe "elephant" 0.85 t0 g)))) = no_elephant
      /\ snd (observe "not_elephant" 0.1 (t0 + 5.1)
                (fst (observe "elephant" 0.85 t0 g))) = true).
Proof.
  split.
  - intros g l c now Hc Ht Hle Hnone.
    destruct (release_general g l c now Hc Ht Hle Hnone) as (H1 & _ & H3).
    split; assumption.
  - exact release_scenario.
Qed.

Lemma release_after_dwell_witness :
  (consistent high_at_100
   /\ tier high_at_100 <> no_elephant
   /\ locked_until high_at_100 <= 106
   /\ new_detection_state "not_elephant" 0.1 = no_elephant
   /\ tier (fst (observe "not_elephant" 0.1 106 high_at_100)) = no_elephant
   /\ snd (observe "not_elephant" 0.1 106 high_at_100) = true)
  /\
  (tier init = no_elephant
   /\ detection_timer_duration init == 5
   /\ tier (fst (observe "not_elephant" 0.1 (100 + 5.1) high_at_100))
      = no_elephant).
Proof.
  assert (Hc : consistent high_at_100) by exact high_at_100_consistent.
  assert (Ht : tier high_at_100 <> no_elephant) by discriminate.
  assert (Hle : locked_until high_at_100 <= 106) by discriminate.
  assert (Hn : new_detection_state "not_elephant" 0.1 = no_elephant)
    by reflexivity.
  assert (Hi : tier init = no_elephant) by reflexivity.
  assert (Hd : detection_timer_duration init == 5) by reflexivity.
  split.
  - destruct (proj1 release_after_dwell high_at_100 "not_elephant" 0.1%float 106
                Hc Ht Hle Hn) as [H1 H2].
    exact (conj Hc (conj Ht (conj Hle (conj Hn (conj H1 H2))))).
  - destruct (proj2 release_after_dwell init 100 Hi Hd) as (_ & H2 & _).
    exact (conj Hi (conj Hd H2)).
Defined.

(** ** Immediate escalation *)

Lemma escalation_general (g : Gui) (l : string) (c : float) (now : Q) :
  new_detection_state l c <> no_elephant ->
  tier g = no_elephant \/ new_detection_state l c <> tier g ->
  tier (fst (observe l c now g)) = new_detection_state l c
  /\ active_since (fst (observe l c now g)) = now
  /\ locked_until (fst (observe l c now g)) = now + detection_timer_duration g
  /\ detection_locked (fst (observe l c now g)) = true
  /\ snd (observe l c now g) = true.
Proof.
  intros Hnew Hor.
  rewrite observe_snd, (observe_starts l c now g Hnew Hor).
  unfold tier, active_since, locked_until in *; simpl.
  repeat split.
  apply negb_true_iff, DetectionState_eqb_neq.
  destruct Hor as [Hnone | Hne]; congruence.
Qed.

Lemma escalation_scenario (g : Gui) (t0 : Q) :
  tier g = no_elephant ->
  detection_timer_duration g == 5 ->
  tier (fst (observe "elephant" 0.85 t0 g)) = elephant_high
  /\ t0 + 1 < locked_until (fst (observe "elephant" 0.85 t0 g))
  /\ tier (fst (observe "elephant" 0.35 (t0 + 1)
                  (fst (observe "elephant" 0.85 t0 g)))) = elephant_medium
  /\ snd (observe "elephant" 0.35 (t0 + 1)
            (fst (observe "elephant" 0.85 t0 g))) = true
  /\ locked_until (fst (observe "elephant" 0.35 (t0 + 1)
                          (fst (observe "elephant" 0.85 t0 g)))) == t0 + 6.
Proof.
  intros Hnone Hd. rewrite (observe_high_from_none t0 g Hnone).
  split; [reflexivity|].
  split; [unfold locked_until; simpl; lra|].
  match goal with
  | |- context [observe _ _ _ ?g1] =>
      destruct (escalation_general g1 "elephant" 0.35 (t0 + 1))
        as (H1 & _ & H3 & _ & H5)
  end.
  - rewrite tier_of_035. discriminate.
  - right. rewrite tier_of_035. discriminate.
  - rewrite H1, H3, H5, tier_of_035. simpl.
    repeat split. lra.
Qed.

(** C3: whatever the state, an observation whose candidate tier is not NONE,
    when the current tier is NONE or differs from the candidate, sets the
    tier to the candidate, [active_since] to [now] and [locked_until] to
    [now + dwell_duration], and is a transition, whether or not the earlier
    window has elapsed; in particular HIGH at [t0] then confidence 0.35 at
    [t0 + 1], inside the window, gives MEDIUM, a transition and
    [locked_until = t0 + 6]. *)
Theorem escalation_is_immediate :
  (forall (g : Gui) (l : string) (c : float) (now : Q),
      new_detection_state l c <> no_elephant ->
      tier g = no_elephant \/ new_detection_state l c <> tier g ->
      tier (fst (observe l c now g)) = new_detection_state l c
      /\ active_since (fst (observe l c now g)) = now
      /\ locked_until (fst (observe l c now g))
         = now + detection_timer_duration g
      /\ snd (observe l c now g) = true)
  /\
  (forall (g : Gui) (t0 : Q),
      tier g = no_elephant ->
      detection_timer_duration g == 5 ->
      tier (fst (observe "elephant" 0.85 t0 g)) = elephant_high
      /\ t0 + 1 < locked_until (fst (observe "elephant" 0.85 t0 g))
      /\ tier (fst (observe "elephant" 0.35 (t0 + 1)
                      (fst (observe "elephant" 0.85 t0 g)))) = elephant_medium
      /\ snd (observe "elephant" 0.35 (t0 + 1)
                (fst (observe "elephant" 0.85 t0 g))) = true
      /\ locked_until (fst (observe "elephant" 0.35 (t0 + 1)
                              (fst (observe "elephant" 0.85 t0 g))))
         == t0 + 6).
Proof.
  split.
  - intros g l c now Hnew Hor.
    destruct (escalation_general g l c now Hnew Hor)
      as (H1 & H2 & H3 & _ & H5).
    auto.
  - exact escalation_scenario.
Qed.

Lemma escalation_is_immediate_witness :
  (new_detection_state "elephant" 0.2 <> no_elephant
   /\ new_detection_state "elephant" 0.2 <> tier high_at_100
   /\ tier (fst (observe "elephant" 0.2 103 high_at_100)) = elephant_low
   /\ locked_until (fst (observe "elephant" 0.2 103 high_at_100)) = 103 + 5)
  /\
  (tier init = no_elephant
   /\ detection_timer_duration init == 5
   /\ locked_until (fst (observe "elephant" 0.35 (100 + 1) high_at_100))
      == 100 + 6).
Proof.
  assert (Hn : new_detection_state "elephant" 0.2 <> no_elephant)
    by discriminate.
  assert (Hne : new_detection_state "elephant" 0.2 <> tier high_at_100)
    by discriminate.
  assert (Hi : tier init = no_elephant) by reflexivity.
  assert (Hd : detection_timer_duration init == 5) by reflexivity.
  split.
  - destruct (proj1 escalation_is_immediate high_at_100 "elephant" 0.2%float
                103 Hn (or_intror Hne)) as (H1 & _ & H3 & _).
    exact (conj Hn (conj Hne (conj H1 H3))).
  - destruct (proj2 escalation_is_immediate init 100 Hi Hd)
      as (_ & _ & _ & _ & H5).
    exact (conj Hi (conj Hd H5)).
Defined.

(** ** Sustained detection *)

Lemma relock_general (g : Gui) (l : string) (c : float) (now : Q) :
  consistent g ->
  tier g <> no_elephant ->
  new_detection_state l c = tier g ->
  locked_until g <= now ->
  tier (fst (observe l c now g)) = tier g
  /\ active_since (fst (observe l c now g)) = now
  /\ locked_until (fst (observe l c now g)) = now + detection_timer_duration g
  /\ detection_locked (fst (observe l c now g)) = true
  /\ snd (observe l c now g) = false.
Proof.
  intros Hc Ht Hsame Hle.
  pose proof (consistent_locked g Hc Ht) as Hl.
  assert (Hnew : new_detection_state l c <> no_elephant) by congruence.
  rewrite observe_snd, (observe_relocks l c now g Hl Hnew Hsame Hle).
  unfold tier, active_since, locked_until in *; simpl.
  rewrite Hsame, DetectionState_eqb_refl. auto.
Qed.

Lemma relock_scenario (g : Gui) (t0 : Q) :
  tier g = no_elephant ->
  detection_timer_duration g == 5 ->
  tier (fst (observe "elephant" 0.85 t0 g)) = elephant_high
  /\ tier (fst (observe "elephant" 0.85 (t0 + 5.1)
                  (fst (observe "elephant" 0.85 t0 g)))) = elephant_high
  /\ locked_until (fst (observe "elephant" 0.85 (t0 + 5.1)
                          (fst (observe "elephant" 0.85 t0 g)))) == t0 + 10.1
  /\ snd (observe "elephant" 0.85 (t0 + 5.1)
            (fst (observe "elephant" 0.85 t0 g))) = false.
Proof.
  intros Hnone Hd. rewrite (observe_high_from_none t0 g Hnone).
  split; [reflexivity|].
  match goal with
  | |- context [observe _ _ _ ?g1] =>
      destruct (relock_general g1 "elephant" 0.85 (t0 + 5.1))
        as (H1 & _ & H3 & _ & H5)
  end.
  - split; intro H; [discriminate | reflexivity].
  - discriminate.
  - reflexivity.
  - unfold locked_until; simpl. lra.
  - rewrite H1, H3, H5. simpl. repeat split. lra.
Qed.

(** C4: in a state whose tier is not NONE, an observation of the same tier
    that arrives once the window has elapsed keeps the tier, restarts the
    window ([active_since = now], [locked_until = now + dwell_duration]) and
    is not a transition; HIGH at [t0] then HIGH at [t0 + 5.1] gives HIGH and
    [locked_until = t0 + 10.1]. *)
Theorem sustained_relock :
  (forall (g : Gui) (l : string) (c : float) (now : Q),
      consistent g ->
      tier g <> no_elephant ->
      new_detection_state l c = tier g ->
      locked_until g <= now ->
      tier (fst (observe l c now g)) = tier g
      /\ active_since (fst (observe l c now g)) = now
      /\ locked_until (fst (observe l c now g))
         = now + detection_timer_duration g
      /\ snd (observe l c now g) = false)
  /\
  (forall (g : Gui) (t0 : Q),
      tier g = no_elephant ->
      detection_timer_duration g == 5 ->
      tier (fst (observe "elephant" 0.85 t0 g)) = elephant_high
      /\ tier (fst (observe "elephant" 0.85 (t0 + 5.1)
                      (fst (observe "elephant" 0.85 t0 g)))) = elephant_high
      /\ locked_until (fst (observe "elephant" 0.85 (t0 + 5.1)
                              (fst (observe "elephant" 0.85 t0 g))))
         == t0 + 10.1
      /\ snd (observe "elephant" 0.85 (t0 + 5.1)
                (fst (observe "elephant" 0.85 t0 g))) = false).
Proof.
  split.
  - intros g l c now Hc Ht Hsame Hle.
    destruct (relock_general g l c now Hc Ht Hsame Hle)
      as (H1 & H2 & H3 & _ & H5).
    auto.
  - exact relock_scenario.
Qed.

Lemma sustained_relock_witness :
  (consistent high_at_100
   /\ tier high_at_100 <> no_elephant
   /\ new_detection_state "elephant" 0.9 = tier high_at_100
   /\ locked_until high_at_100 <= 105
   /\ locked_until (fst (observe "elephant" 0.9 105 high_at_100)) = 105 + 5
   /\ snd (observe "elephant" 0.9 105 high_at_100) = false)
  /\
  (tier init = no_elephant
   /\ detection_timer_duration init == 5
   /\ locked_until (fst (observe "elephant" 0.85 (100 + 5.1) high_at_100))
      == 100 + 10.1).
Proof.
  assert (Hc : consistent high_at_100) by exact high_at_100_consistent.
  assert (Ht : tier high_at_100 <> no_elephant) by discriminate.
  assert (Hs : new_detection_state "elephant" 0.9 = tier high_at_100)
    by reflexivity.
  assert (Hle : locked_until high_at_100 <= 105) by discriminate.
  assert (Hi : tier init = no_elephant) by reflexivity.
  assert (Hd : detection_timer_duration init == 5) by reflexivity.
  split.
  - destruct (proj1 sustained_relock high_at_100 "elephant" 0.9%float 105
                Hc Ht Hs Hle) as (_ & _ & H3 & H4).
    exact (conj Hc (conj Ht (conj Hs (conj Hle (conj H3 H4))))).
  - destruct (proj2 sustained_relock init 100 Hi Hd) as (_ & _ & H3 & _).
    exact (conj Hi (conj Hd H3)).
Defined.

(** ** Runs from the initial state *)

Lemma run_snoc (os : list Observation) (o : Observation) (g : Gui) :
  run (os ++ [o]) g = step (run os g) o.
Proof. unfold run. rewrite fold_left_app. reflexivity. Qed.

Lemma step_keeps_duration (g : Gui) (o : Observation) :
  detection_timer_duration (step g o) = detection_timer_duration g.
Proof.
  unfold step. rewrite observe_fst, update_keeps_duration. reflexivity.
Qed.

Lemma run_keeps_duration (os : list Observation) (g : Gui) :
  detection_timer_duration (run os g) = detection_timer_duration g.
Proof.
  revert g. induction os as [|o os IH]; intro g; simpl; [reflexivity|].
  rewrite IH. apply step_keeps_duration.
Qed.

(** After a step that leaves a tier latched, the timer is the time of that
    step, or the step found the tier latched and left the timer alone. *)
Lemma step_latched_cases (g : Gui) (o : Observation) :
  tier (step g o) <> no_elephant ->
  detection_timer_start (step g o) = arrival_time o
  \/ (detection_timer_start (step g o) = detection_timer_start g
      /\ tier g <> no_elephant).
Proof.
  unfold step, tier. rewrite observe_fst.
  unfold update_detection_display. simpl.
  case_tests; simpl; intro H; auto; congruence.
Qed.

(** A step leaves the timer alone or sets it to its own time. *)
Lemma step_timer_cases (g : Gui) (o : Observation) :
  detection_timer_start (step g o) = detection_timer_start g
  \/ detection_timer_start (step g o) = arrival_time o.
Proof.
  unfold step. rewrite observe_fst.
  destruct (update_timer_cases (arrival_time o)
              (store (label o) (confidence o) g)) as [H | [H _]];
    [left | right]; exact H.
Qed.

(** The latched timer is the arrival time of one of the observations. *)
Lemma latched_timer_in_run (os : list Observation) :
  tier (run os init) <> no_elephant ->
  exists o, In o os /\ detection_timer_start (run os init) = arrival_time o.
Proof.
  induction os as [|o os IH] using rev_ind.
  - simpl. intro H. now contradiction H.
  - rewrite run_snoc. intro Ht.
    destruct (step_latched_cases _ _ Ht) as [Hset | [Hkept Hprev]].
    + exists o. split; [apply in_or_app; right; now left | exact Hset].
    + destruct (IH Hprev) as (o' & Hin & Heq).
      exists o'. split; [apply in_or_app; now left | congruence].
Qed.

Lemma chronological_snoc (os : list Observation) (o : Observation) :
  chronological (os ++ [o]) ->
  chronological os
  /\ Forall (fun o' => arrival_time o' <= arrival_time o) os.
Proof.
  induction os as [|a os IH]; simpl.
  - auto.
  - intros [Hall Hrest]. destruct (IH Hrest) as [Hc Hle].
    apply Forall_app in Hall. destruct Hall as [Hall Ho].
    repeat split; auto.
    constructor; [|exact Hle]. now inversion Ho.
Qed.

Lemma chronological_app_l (os1 os2 : list Observation) :
  chronological (os1 ++ os2) -> chronological os1.
Proof.
  induction os1 as [|a os1 IH]; simpl; [auto|].
  intros [Hall Hrest]. apply Forall_app in Hall. split; [apply Hall | auto].
Qed.

(** One step of a chronological run does not move [locked_until] back while
    a tier stays latched. *)
Lemma lock_step_monotonic (os : list Observation) (o : Observation) :
  chronological (os ++ [o]) ->
  tier (run os init) <> no_elephant ->
  tier (run (os ++ [o]) init) <> no_elephant ->
  locked_until (run os init) <= locked_until (run (os ++ [o]) init).
Proof.
  intros Hch Ht Ht'.
  destruct (chronological_snoc _ _ Hch) as [_ Hle].
  destruct (latched_timer_in_run os Ht) as (o' & Hin & Heq).
  rewrite Forall_forall in Hle. specialize (Hle o' Hin).
  unfold locked_until. rewrite run_snoc, step_keeps_duration.
  destruct (step_timer_cases (run os init) o) as [-> | ->].
  - lra.
  - rewrite Heq. lra.
Qed.

Lemma stays_latched_head (os : list Observation) (g : Gui) :
  stays_latched os g -> tier g <> no_elephant.
Proof. destruct os; simpl; tauto. Qed.

Lemma lock_run_monotonic (os2 os1 : list Observation) :
  chronological (os1 ++ os2) ->
  stays_latched os2 (run os1 init) ->
  locked_until (run os1 init) <= locked_until (run (os1 ++ os2) init).
Proof.
  revert os1. induction os2 as [|o os2 IH]; intros os1 Hch Hst.
  - rewrite app_nil_r. lra.
  - simpl in Hst. destruct Hst as [Ht Hst].
    replace (os1 ++ o :: os2) with ((os1 ++ [o]) ++ os2) in *
      by (rewrite <- app_assoc; reflexivity).
    rewrite <- run_snoc in Hst.
    apply Qle_trans with (locked_until (run (os1 ++ [o]) init)).
    + apply lock_step_monotonic; auto.
      * eapply chronological_app_l; eauto.
      * eapply stays_latched_head; eauto.
    + apply IH; auto.
Qed.

(** C5: along every sequence of observations taken from the initial state,
    a step leaves the timer alone or sets [locked_until] to its own time
    plus the dwell duration, which is not before that time; a latched tier
    always carries such a [locked_until]; and when arrival times never go
    back, [locked_until] never decreases for as long as the tier stays
    other than NONE. *)
Theorem lock_monotonic_invariant :
  (forall (os : list Observation) (o : Observation),
      detection_timer_start (run (os ++ [o]) init)
      = detection_timer_start (run os init)
      \/ (locked_until (run (os ++ [o]) init)
          = arrival_time o + detection_timer_duration init
          /\ arrival_time o <= locked_until (run (os ++ [o]) init)))
  /\
  (forall os : list Observation,
      tier (run os init) <> no_elephant ->
      exists o, In o os
                /\ locked_until (run os init)
                   = arrival_time o + detection_timer_duration init
                /\ arrival_time o <= locked_until (run os init))
  /\
  (forall os1 os2 : list Observation,
      chronological (os1 ++ os2) ->
      stays_latched os2 (run os1 init) ->
      locked_until (run os1 init) <= locked_until (run (os1 ++ os2) init)).
Proof.
  split; [|split].
  - intros os o. rewrite run_snoc.
    destruct (step_timer_cases (run os init) o) as [H | H]; [now left|].
    right. unfold locked_until.
    rewrite step_keeps_duration, run_keeps_duration, H.
    split; [reflexivity | simpl; lra].
  - intros os Ht. destruct (latched_timer_in_run os Ht) as (o & Hin & Heq).
    exists o. unfold locked_until. rewrite run_keeps_duration, Heq.
    repeat split; [exact Hin | simpl; lra].
  - intros os1 os2. apply lock_run_monotonic.
Qed.

Lemma lock_monotonic_invariant_witness :
  let os1 := [mkObservation "elephant" 0.85 100] in
  let os2 := [mkObservation "not_elephant" 0.1 102;
              mkObservation "elephant" 0.85 106] in
  chronological (os1 ++ os2)
  /\ stays_latched os2 (run os1 init)
  /\ locked_until (run os1 init) <= locked_until (run (os1 ++ os2) init)
  /\ exists o, In o os1
               /\ locked_until (run os1 init)
                  = arrival_time o + detection_timer_duration init
               /\ arrival_time o <= locked_until (run os1 init).
Proof.
  intros os1 os2.
  assert (Hch : chronological (os1 ++ os2)).
  { simpl. repeat split; repeat constructor; discriminate. }
  assert (Hst : stays_latched os2 (run os1 init)).
  { simpl. repeat split; discriminate. }
  assert (Ht : tier (run os1 init) <> no_elephant) by discriminate.
  destruct lock_monotonic_invariant as (_ & Hinv & Hmono).
  exact (conj Hch (conj Hst (conj (Hmono os1 os2 Hch Hst) (Hinv os1 Ht)))).
Defined.

(** ** Tier mapping *)

(** C6, as stated, at an explicit input: for the label "elephant" and the
    confidence 0.7, above 0.5, the noise logger announces a possible
    elephant (MEDIUM) where the other two GUIs compute HIGH. *)
Lemma noise_logger_maps_differently :
  (0.5 <? 0.7)%float = true
  /\ new_detection_state "elephant" 0.7 = elephant_high
  /\ advanced_new_detection_state "elephant" 0.7 = elephant_high
  /\ update_detection_indicator "elephant" 0.7 = elephant_medium
  /\ update_detection_indicator "elephant" 0.7 <> elephant_high.
Proof. repeat split; discriminate. Qed.

Lemma label_is_elephant (l : string) :
  l = "elephant" -> String.eqb l "elephant" = true.
Proof. intros ->. reflexivity. Qed.

Lemma label_is_not_elephant (l : string) :
  l <> "elephant" -> String.eqb l "elephant" = false.
Proof. intro H. apply String.eqb_neq. exact H. Qed.

(** A confidence that is at most 0.3 fails both threshold tests. *)
Lemma low_confidence_is_low (c : float) :
  (c <=? 0.3)%float = true -> new_detection_state "elephant" c = elephant_low.
Proof.
  intro H. unfold new_detection_state. simpl.
  rewrite (float_le_not_lt _ _ H).
  rewrite (float_le_lt_not_lt c 0.3 0.5 H eq_refl). reflexivity.
Qed.

(** C6 (amended): in the simple and in the advanced GUI the candidate tier
    is HIGH when the label is "elephant" and confidence > 0.5, MEDIUM when
    0.3 < confidence <= 0.5, LOW when confidence <= 0.3, and NONE for any
    other label; the noise logger also shows NONE for any other label, but
    its thresholds are 0.8 and 0.6 in place of 0.5 and 0.3. *)
Theorem tier_mapping (l : string) (c : float) :
  (l = "elephant" -> (0.5 <? c)%float = true ->
   new_detection_state l c = elephant_high)
  /\ (l = "elephant" -> (0.3 <? c)%float = true -> (c <=? 0.5)%float = true ->
      new_detection_state l c = elephant_medium)
  /\ (l = "elephant" -> (c <=? 0.3)%float = true ->
      new_detection_state l c = elephant_low)
  /\ (l <> "elephant" -> new_detection_state l c = no_elephant)
  /\ advanced_new_detection_state l c = new_detection_state l c
  /\ (l = "elephant" -> (0.8 <? c)%float = true ->
      update_detection_indicator l c = elephant_high)
  /\ (l = "elephant" -> (0.6 <? c)%float = true -> (c <=? 0.8)%float = true ->
      update_detection_indicator l c = elephant_medium)
  /\ (l = "elephant" -> (c <=? 0.6)%float = true ->
      update_detection_indicator l c = elephant_low)
  /\ (l <> "elephant" -> update_detection_indicator l c = no_elephant).
Proof.
  unfold new_detection_state, advanced_new_detection_state,
    update_detection_indicator.
  repeat split.
  - intros Hl H. rewrite (label_is_elephant l Hl), H. reflexivity.
  - intros Hl H3 H5.
    rewrite (label_is_elephant l Hl), (float_le_not_lt _ _ H5), H3.
    reflexivity.
  - intros -> H3. apply low_confidence_is_low. exact H3.
  - intro Hl. rewrite (label_is_not_elephant l Hl). reflexivity.
  - intros Hl H. rewrite (label_is_elephant l Hl), H. reflexivity.
  - intros Hl H6 H8.
    rewrite (label_is_elephant l Hl), (float_le_not_lt _ _ H8), H6.
    reflexivity.
  - intros Hl H6.
    rewrite (label_is_elephant l Hl), (float_le_not_lt _ _ H6).
    rewrite (float_le_lt_not_lt c 0.6 0.8 H6 eq_refl). reflexivity.
  - intro Hl. rewrite (label_is_not_elephant l Hl). reflexivity.
Qed.

Lemma tier_mapping_witness :
  new_detection_state "elephant" 0.85 = elephant_high
  /\ new_detection_state "elephant" 0.5 = elephant_medium
  /\ new_detection_state "elephant" 0.3 = elephant_low
  /\ new_detection_state "not_elephant" 0.85 = no_elephant
  /\ update_detection_indicator "elephant" 0.85 = elephant_high
  /\ update_detection_indicator "elephant" 0.8 = elephant_medium
  /\ update_detection_indicator "elephant" 0.6 = elephant_low
  /\ update_detection_indicator "not_elephant" 0.85 = no_elephant.
Proof.
  assert (Hne : "not_elephant" <> "elephant") by discriminate.
  destruct (tier_mapping "elephant" 0.85%float)
    as (H1 & _ & _ & _ & _ & H6 & _).
  destruct (tier_mapping "elephant" 0.5%float) as (_ & H2 & _).
  destruct (tier_mapping "elephant" 0.3%float) as (_ & _ & H3 & _).
  destruct (tier_mapping "elephant" 0.8%float)
    as (_ & _ & _ & _ & _ & _ & H7 & _).
  destruct (tier_mapping "elephant" 0.6%float)
    as (_ & _ & _ & _ & _ & _ & _ & H8 & _).
  destruct (tier_mapping "not_elephant" 0.85%float)
    as (_ & _ & _ & H4 & _ & _ & _ & _ & H9).
  exact (conj (H1 eq_refl eq_refl)
        (conj (H2 eq_refl eq_refl eq_refl)
        (conj (H3 eq_refl eq_refl)
        (conj (H4 Hne)
        (conj (H6 eq_refl eq_refl)
        (conj (H7 eq_refl eq_refl eq_refl)
        (conj (H8 eq_refl eq_refl)
              (H9 Hne)))))))).
Defined.

(** ** The no-op *)

(** With no tier latched, an observation that announces none leaves the
    tier and the timer as they are, whatever the lock flag. *)
Lemma step_idle (g : Gui) (o : Observation) :
  tier g = no_elephant ->
  candidate_tier o = no_elephant ->
  tier (step g o) = no_elephant
  /\ detection_timer_start (step g o) = detection_timer_start g
  /\ detection_timer_duration (step g o) = detection_timer_duration g
  /\ snd (observe (label o) (confidence o) (arrival_time o) g) = false.
Proof.
  unfold candidate_tier, step. intros Ht Hc.
  rewrite observe_snd, observe_fst.
  unfold tier, update_detection_display in *. simpl. rewrite Hc. simpl.
  case_tests; simpl; rewrite ?Ht; auto.
Qed.

(** C7: in a state whose tier is NONE, any number of observations whose
    candidate tier is NONE, such as the same negative observation repeated,
    are never transitions and leave the tier NONE and [active_since] and
    [locked_until] as they were. *)
Theorem noop_is_idempotent (g : Gui) (os : list Observation) :
  tier g = no_elephant ->
  Forall (fun o => candidate_tier o = no_elephant) os ->
  tier (run os g) = no_elephant
  /\ active_since (run os g) = active_since g
  /\ locked_until (run os g) = locked_until g
  /\ Forall (fun b => b = false) (flags os g).
Proof.
  intros Ht Hall. revert g Ht.
  induction Hall as [|o os Ho _ IH]; intros g Ht.
  - simpl. auto.
  - destruct (step_idle g o Ht Ho) as (Ht' & Hts & Hd & Hf).
    destruct (IH (step g o) Ht') as (H1 & H2 & H3 & H4).
    change (run (o :: os) g) with (run os (step g o)).
    rewrite H1, H2, H3. unfold active_since, locked_until.
    rewrite Hts, Hd. simpl. auto.
Qed.

Lemma noop_is_idempotent_witness :
  let os := repeat (mkObservation "not_elephant" 0 7) 3 in
  tier init = no_elephant
  /\ Forall (fun o => candidate_tier o = no_elephant) os
  /\ tier (run os init) = no_elephant
  /\ active_since (run os init) = active_since init
  /\ locked_until (run os init) = locked_until init
  /\ flags os init = [false; false; false].
Proof.
  intro os.
  assert (Ht : tier init = no_elephant) by reflexivity.
  assert (Hall : Forall (fun o => candidate_tier o = no_elephant) os).
  { repeat constructor. }
  destruct (noop_is_idempotent init os Ht Hall) as (H1 & H2 & H3 & _).
  exact (conj Ht (conj Hall (conj H1 (conj H2 (conj H3 eq_refl))))).
Defined.

(** ** Totality *)

Lemma float_of_int_0 : Interp.float_of_int 0 = Interp.Returns 0%float.
Proof. reflexivity. Qed.

Lemma is_state_name_cases (s : string) :
  Interp.is_state_name s = true ->
  s = "no_elephant" \/ s = "elephant_low" \/ s = "elephant_medium"
  \/ s = "elephant_high".
Proof.
  unfold Interp.is_state_name. intro H.
  repeat (apply orb_true_iff in H; destruct H as [H | H]);
    apply String.eqb_eq in H; auto.
Qed.

(** On a float the threshold tests return, and the local tag is the one
    of the tier mapping. *)
Lemma interp_new_detection_state (l : string) (c : float)
    (a : Interp.App) :
  Interp.new_detection_state (Interp.store l c a)
  = Interp.Returns (state_name (new_detection_state l c)).
Proof.
  unfold Interp.new_detection_state, new_detection_state.
  change (Interp.py_eq (Interp.current_classification (Interp.store l c a))
                       (Interp.PyStr "elephant"))
    with (String.eqb l "elephant").
  destruct (String.eqb l "elephant"); [|reflexivity].
  change (Interp.py_gt (Interp.current_confidence (Interp.store l c a))
                       (Interp.PyFloat 0.5))
    with (Interp.Returns (0.5 <? c)%float).
  change (Interp.py_gt (Interp.current_confidence (Interp.store l c a))
                       (Interp.PyFloat 0.3))
    with (Interp.Returns (0.3 <? c)%float).
  unfold Interp.bind.
  destruct (0.5 <? c)%float; [reflexivity|].
  destruct (0.3 <? c)%float; reflexivity.
Qed.

Lemma well_typed_inv (a : Interp.App) :
  Interp.well_typed a = true ->
  exists s c d n b,
    Interp.current_classification a = Interp.PyStr s
    /\ Interp.current_confidence a = Interp.PyFloat c
    /\ (Interp.detection_timer_start a = Interp.PyInt 0
        \/ exists t, Interp.detection_timer_start a = Interp.PyFloat t)
    /\ Interp.detection_timer_duration a = Interp.PyFloat d
    /\ Interp.last_detection_state a = Interp.PyStr (state_name n)
    /\ Interp.detection_locked a = Interp.PyBool b.
Proof.
  unfold Interp.well_typed.
  destruct (Interp.current_classification a) as [| | | |s]; try discriminate.
  destruct (Interp.current_confidence a) as [| | |c|]; try discriminate.
  destruct (Interp.detection_timer_duration a) as [| | |d|];
    try (destruct (Interp.detection_timer_start a) as [| |[| |]| |];
         discriminate).
  destruct (Interp.last_detection_state a) as [| | | |n];
    try (destruct (Interp.detection_timer_start a) as [| |[| |]| |];
         discriminate).
  destruct (Interp.detection_locked a) as [|b| | |];
    try (destruct (Interp.detection_timer_start a) as [| |[| |]| |];
         discriminate).
  intro H.
  assert (Hn : Interp.is_state_name n = true).
  { destruct (Interp.detection_timer_start a) as [| |[| |]| |];
      try discriminate; exact H. }
  assert (Ht : Interp.detection_timer_start a = Interp.PyInt 0
               \/ exists t, Interp.detection_timer_start a = Interp.PyFloat t).
  { destruct (Interp.detection_timer_start a) as [| |[| |]|t|];
      try discriminate; [left; reflexivity | right; exists t; reflexivity]. }
  exists s, c, d.
  destruct (is_state_name_cases n Hn) as [-> | [-> | [-> | ->]]];
    [exists no_elephant | exists elephant_low | exists elephant_medium
     | exists elephant_high];
    exists b; repeat split; assumption.
Qed.

Ltac py_unfold :=
  cbv [Interp.update_lock Interp.update_labels Interp.bind Interp.py_eq
       Interp.as_number Interp.py_gt Interp.py_ge Interp.py_sub
       Interp.num_lt Interp.num_le Interp.num_eq Interp.to_float
       Interp.times_100 Interp.max_0 Interp.format_1f Interp.truthy
       Interp.tk_call Interp.config_detection_label Interp.bell
       Interp.config_classification_label Interp.config_confidence_label
       Interp.config_timer_label Interp.set_detection_timer_start
       Interp.set_detection_locked Interp.set_last_detection_state
       Interp.current_classification Interp.current_confidence
       Interp.detection_timer_start Interp.detection_timer_duration
       Interp.last_detection_state Interp.detection_locked Interp.widgets
       Interp.root_exists Interp.detection_label Interp.bells
       Interp.classification_label Interp.confidence_label
       Interp.timer_label negb andb orb state_name String.eqb Ascii.eqb
       Bool.eqb];
  rewrite ?float_of_int_0.

Ltac py_tests :=
  repeat match goal with
         | |- context [if ?b then _ else _] =>
             destruct b eqn:?; rewrite ?float_of_int_0
         | |- context [match Interp.compare_int_float ?z ?f with _ => _ end] =>
             destruct (Interp.compare_int_float z f) as [[| |]|] eqn:?;
             rewrite ?float_of_int_0
         end.

Lemma update_lock_returns (now : float) (a : Interp.App)
    (m : DetectionState) :
  Interp.well_typed a = true ->
  Interp.root_exists (Interp.widgets a) = true ->
  exists a',
    Interp.update_lock now (state_name m) a = Interp.Returns a'
    /\ Interp.well_typed a' = true
    /\ Interp.root_exists (Interp.widgets a') = true
    /\ Interp.current_classification a' = Interp.current_classification a
    /\ Interp.current_confidence a' = Interp.current_confidence a
    /\ (Interp.detection_locked a = Interp.PyBool false ->
        Interp.last_detection_state a' = Interp.PyStr (state_name m)
        /\ Interp.detection_locked a'
           = Interp.PyBool (negb (DetectionState_eqb m no_elephant))).
Proof.
  intros Ht Hr.
  destruct (well_typed_inv a Ht)
    as (s & c & d & n & b & Hs & Hc & Hstart & Hd & Hn & Hb).
  destruct a as [cc cf ts td ls lk [re dl be cl cfl tl]].
  simpl in *. subst. clear Ht.
  destruct Hstart as [-> | [t ->]]; destruct m, n, b; py_unfold; py_tests;
    try discriminate;
    (eexists; split; [reflexivity|]);
    repeat split; try reflexivity; discriminate.
Qed.

Lemma update_labels_returns (now : float) (a : Interp.App) :
  Interp.well_typed a = true ->
  Interp.root_exists (Interp.widgets a) = true ->
  exists a',
    Interp.update_labels now a = Interp.Returns a'
    /\ Interp.well_typed a' = true
    /\ Interp.root_exists (Interp.widgets a') = true
    /\ Interp.current_classification a' = Interp.current_classification a
    /\ Interp.current_confidence a' = Interp.current_confidence a
    /\ Interp.last_detection_state a' = Interp.last_detection_state a
    /\ Interp.detection_locked a' = Interp.detection_locked a.
Proof.
  intros Ht Hr.
  destruct (well_typed_inv a Ht)
    as (s & c & d & n & b & Hs & Hc & Hstart & Hd & Hn & Hb).
  destruct a as [cc cf ts td ls lk [re dl be cl cfl tl]].
  simpl in *. subst. clear Ht.
  destruct Hstart as [-> | [t ->]]; destruct n, b; py_unfold; py_tests;
    try discriminate;
    (eexists; split; [reflexivity|]);
    repeat split; reflexivity.
Qed.

Lemma new_detection_state_returns (a : Interp.App) (s : string)
    (c : float) :
  Interp.current_classification a = Interp.PyStr s ->
  Interp.current_confidence a = Interp.PyFloat c ->
  Interp.new_detection_state a
  = Interp.Returns (state_name (new_detection_state s c)).
Proof.
  intros Hs Hc.
  unfold Interp.new_detection_state, new_detection_state.
  rewrite Hs, Hc.
  change (Interp.py_eq (Interp.PyStr s) (Interp.PyStr "elephant"))
    with (String.eqb s "elephant").
  destruct (String.eqb s "elephant"); [|reflexivity].
  change (Interp.py_gt (Interp.PyFloat c) (Interp.PyFloat 0.5))
    with (Interp.Returns (0.5 <? c)%float).
  change (Interp.py_gt (Interp.PyFloat c) (Interp.PyFloat 0.3))
    with (Interp.Returns (0.3 <? c)%float).
  unfold Interp.bind.
  destruct (0.5 <? c)%float; [reflexivity|].
  destruct (0.3 <? c)%float; reflexivity.
Qed.

Lemma update_detection_display_returns (now : float) (a : Interp.App)
    (s : string) (c : float) :
  Interp.well_typed a = true ->
  Interp.root_exists (Interp.widgets a) = true ->
  Interp.current_classification a = Interp.PyStr s ->
  Interp.current_confidence a = Interp.PyFloat c ->
  exists a',
    Interp.update_detection_display now a = Interp.Returns a'
    /\ Interp.well_typed a' = true
    /\ Interp.root_exists (Interp.widgets a') = true
    /\ Interp.current_classification a' = Interp.PyStr s
    /\ Interp.current_confidence a' = Interp.PyFloat c
    /\ (Interp.detection_locked a = Interp.PyBool false ->
        Interp.last_detection_state a'
        = Interp.PyStr (state_name (new_detection_state s c))
        /\ Interp.detection_locked a'
           = Interp.PyBool
               (negb (DetectionState_eqb (new_detection_state s c)
                                         no_elephant))).
Proof.
  intros Ht Hr Hs Hc.
  unfold Interp.update_detection_display.
  rewrite (new_detection_state_returns a s c Hs Hc).
  destruct (update_lock_returns now a (new_detection_state s c) Ht Hr)
    as (a1 & E1 & Ht1 & Hr1 & Hs1 & Hc1 & Hfree).
  destruct (update_labels_returns now a1 Ht1 Hr1)
    as (a2 & E2 & Ht2 & Hr2 & Hs2 & Hc2 & Hl2 & Hk2).
  exists a2. unfold Interp.bind at 1 2. rewrite E1, E2.
  rewrite Hs2, Hc2, Hl2, Hk2, Hs1, Hc1.
  exact (conj eq_refl (conj Ht2 (conj Hr2 (conj Hs (conj Hc Hfree))))).
Qed.

Lemma store_well_typed (l : string) (c : float) (a : Interp.App) :
  Interp.well_typed a = true -> Interp.well_typed (Interp.store l c a) = true.
Proof.
  intro Ht.
  destruct (well_typed_inv a Ht)
    as (s & c0 & d & n & b & Hs & Hc & Hstart & Hd & Hn & Hb).
  destruct a as [cc cf ts td ls lk w]. simpl in *. subst.
  destruct Hstart as [-> | [t ->]]; exact Ht.
Qed.

Lemma handle_returns (e : Interp.Event) (a : Interp.App) :
  Interp.well_typed a = true ->
  Interp.root_exists (Interp.widgets a) = true ->
  exists a',
    Interp.handle e a = Interp.Returns a'
    /\ Interp.well_typed a' = true
    /\ Interp.root_exists (Interp.widgets a') = true.
Proof.
  intros Ht Hr. destruct e as [l c now | now]; simpl.
  - destruct (update_detection_display_returns now (Interp.store l c a) l c
                (store_well_typed l c a Ht) Hr eq_refl eq_refl)
      as (a' & E & Ht' & Hr' & _).
    exists a'. auto.
  - unfold Interp.process_data_queue_tick.
    destruct (Interp.truthy (Interp.detection_locked a)).
    + destruct (well_typed_inv a Ht) as (s & c & _ & _ & _ & Hs & Hc & _).
      destruct (update_detection_display_returns now a s c Ht Hr Hs Hc)
        as (a' & E & Ht' & Hr' & _).
      exists a'. auto.
    + exists a. auto.
Qed.

Lemma run_returns (events : list Interp.Event) (a : Interp.App) :
  Interp.well_typed a = true ->
  Interp.root_exists (Interp.widgets a) = true ->
  exists a',
    Interp.run events a = Interp.Returns a'
    /\ Interp.well_typed a' = true
    /\ Interp.root_exists (Interp.widgets a') = true.
Proof.
  revert a. induction events as [|e rest IH]; intros a Ht Hr.
  - exists a. auto.
  - destruct (handle_returns e a Ht Hr) as (a1 & E & Ht1 & Hr1).
    destruct (IH a1 Ht1 Hr1) as (a2 & E2 & Ht2 & Hr2).
    exists a2. simpl. rewrite E. simpl. auto.
Qed.

(** C8: [observe] returns for every label, every confidence (any binary64
    value: out of range, infinite or NaN) and every reading of the clock.
    In the embedding that keeps every statement able to raise, one call on
    attributes of the types that the constructor and [parse_classification]
    give them, in a window that exists, returns a state of the same kind
    holding the label and the confidence; from an unlocked state the
    latched tag is the one of the tier mapping.  So from the constructor's
    state every sequence of decoded lines and turns of the event loop runs
    to its end: no error branch is reachable. *)
Theorem observe_total :
  (forall (l : string) (c now : float) (a : Interp.App),
      Interp.well_typed a = true ->
      Interp.root_exists (Interp.widgets a) = true ->
      exists a',
        Interp.observe l c now a = Interp.Returns a'
        /\ Interp.well_typed a' = true
        /\ Interp.root_exists (Interp.widgets a') = true
        /\ Interp.current_classification a' = Interp.PyStr l
        /\ Interp.current_confidence a' = Interp.PyFloat c
        /\ (Interp.detection_locked a = Interp.PyBool false ->
            Interp.last_detection_state a'
            = Interp.PyStr (state_name (new_detection_state l c))
            /\ Interp.detection_locked a'
               = Interp.PyBool
                   (negb (DetectionState_eqb (new_detection_state l c)
                                             no_elephant))))
  /\ (forall events : list Interp.Event,
        exists a',
          Interp.run events Interp.init = Interp.Returns a'
          /\ Interp.well_typed a' = true).
Proof.
  split.
  - intros l c now a Ht Hr.
    exact (update_detection_display_returns now (Interp.store l c a) l c
             (store_well_typed l c a Ht) Hr eq_refl eq_refl).
  - intro events.
    destruct (run_returns events Interp.init eq_refl eq_refl)
      as (a' & E & Ht & _).
    exists a'. auto.
Qed.

(** Outside these types the statements do raise: a confidence that is a
    text fails the first threshold test, and a destroyed window refuses the
    first widget call. *)
Lemma text_confidence_raises (now : float) :
  Interp.update_detection_display now text_confidence
  = Interp.Raises Interp.TypeError.
Proof. reflexivity. Qed.

Lemma window_destroyed_raises (now : float) :
  Interp.update_detection_display now window_destroyed
  = Interp.Raises Interp.TclError.
Proof. reflexivity. Qed.

Lemma observe_total_witness :
  Interp.well_typed Interp.init = true
  /\ Interp.root_exists (Interp.widgets Interp.init) = true
  /\ exists a',
       Interp.observe "elephant" nan 100 Interp.init = Interp.Returns a'
       /\ Interp.last_detection_state a' = Interp.PyStr "elephant_low"
       /\ Interp.detection_locked a' = Interp.PyBool true.
Proof.
  destruct (proj1 observe_total "elephant" nan 100%float Interp.init
              eq_refl eq_refl)
    as (a' & E & _ & _ & _ & _ & Hfree).
  destruct (Hfree eq_refl) as [Hl Hk].
  exact (conj eq_refl (conj eq_refl
           (ex_intro _ a' (conj E (conj Hl Hk))))).
Defined.

(** ** The lock flag and the latched tier *)

Lemma store_consistent (l : string) (c : float) (g : Gui) :
  consistent g -> consistent (store l c g).
Proof. unfold consistent. simpl. auto. Qed.

Lemma update_consistent (now : Q) (g : Gui) :
  consistent g -> consistent (update_detection_display now g).
Proof.
  unfold consistent, update_detection_display.
  destruct (DetectionState_eqb _ no_elephant) eqn:E; simpl.
  - case_tests; simpl; intuition congruence.
  - apply DetectionState_eqb_neq in E.
    case_tests; simpl; intuition congruence.
Qed.

(** C9: in every state reached from the initial one by decoded lines and
    turns of the event loop, [detection_locked] holds exactly when
    [last_detection_state] is a tier other than NONE. *)
Theorem lock_agrees_with_tier (g : Gui) :
  reachable g ->
  (detection_locked g = true <-> last_detection_state g <> no_elephant).
Proof.
  intro Hr. change (consistent g).
  induction Hr as [|l c now g _ IH|now g _ IH].
  - split; intro H; [discriminate | now contradiction H].
  - apply update_consistent, store_consistent, IH.
  - unfold process_data_queue_tick.
    destruct (detection_locked g); [apply update_consistent|]; exact IH.
Qed.

Lemma lock_agrees_with_tier_witness :
  reachable high_at_100
  /\ (detection_locked high_at_100 = true
      <-> last_detection_state high_at_100 <> no_elephant).
Proof.
  assert (Hr : reachable high_at_100).
  { apply (reach_line "elephant" 0.85%float 100 init), reach_init. }
  exact (conj Hr (lock_agrees_with_tier high_at_100 Hr)).
Defined.

(** ** The positive label always latches *)




(** * The advanced GUI *)

(** ** The widgets of one update *)

Lemma advanced_mapping_same (l : string) (c : float) :
  advanced_new_detection_state l c = new_detection_state l c.
Proof. reflexivity. Qed.

(** The attributes change as in the debounce step studied above. *)
Lemma display_state (now : Q) (g : Gui) (p : Panel) :
  fst (AdvancedGui.update_detection_display now g p)
  = update_detection_display now g.
Proof.
  unfold AdvancedGui.update_detection_display, update_detection_display.
  rewrite advanced_mapping_same.
  case_tests; reflexivity.
Qed.

Lemma max0_positive (x : Q) : 0 < x -> max0 x = x.
Proof.
  intro H. unfold max0.
  destruct (Qle_bool x 0) eqn:E; [|reflexivity].
  apply Qle_bool_iff in E. lra.
Qed.

(** The bell and the detection counter move together, by at most one. *)
Lemma display_bell_cases (now : Q) (g : Gui) (p : Panel) :
  let new := new_detection_state (current_classification g)
                                 (current_confidence g) in
  let p' := snd (AdvancedGui.update_detection_display now g p) in
  (bell_count p' = S (bell_count p)
   /\ elephant_detections p' = S (elephant_detections p)
   /\ new = elephant_high
   /\ (detection_locked g = false \/ new <> last_detection_state g))
  \/ (bell_count p' = bell_count p
      /\ elephant_detections p' = elephant_detections p
      /\ (new <> elephant_high
          \/ (detection_locked g = true /\ new = last_detection_state g))).
Proof.
  intros new p'. subst new p'.
  unfold AdvancedGui.update_detection_display.
  rewrite advanced_mapping_same.
  destruct (new_detection_state _ _) eqn:Hn;
    destruct (detection_locked g) eqn:Hl;
    destruct (last_detection_state g) eqn:Hs; simpl;
      case_tests; simpl;
        first
          [ solve [left; repeat split; auto;
                   first [left; reflexivity | right; discriminate]]
          | solve [right; repeat split; auto;
                   first [left; discriminate | right; auto]] ].
Qed.

(** X1: in a session whose lock flag agrees with its tier, one update rings
    the bell, and counts a detection, exactly when the latched tier becomes
    HIGH from another tier; a HIGH that is held or renewed rings nothing. *)
Theorem bell_rings_on_entering_high (now : Q) (g : Gui) (p : Panel) :
  consistent g ->
  let g' := fst (AdvancedGui.update_detection_display now g p) in
  let p' := snd (AdvancedGui.update_detection_display now g p) in
  let entering :=
    negb (DetectionState_eqb (tier g) elephant_high)
    && DetectionState_eqb (tier g') elephant_high in
  bell_count p' = (bell_count p + if entering then 1 else 0)%nat
  /\ elephant_detections p'
     = (elephant_detections p + if entering then 1 else 0)%nat.
Proof.
  intros Hc g' p' entering. subst g' p' entering.
  rewrite display_state.
  destruct (display_bell_cases now g p) as
    [(Hb & Hd & Hn & Hor) | (Hb & Hd & Hor)]; rewrite Hb, Hd.
  - rewrite update_starts; [|rewrite Hn; discriminate|exact Hor].
    unfold tier. simpl. rewrite Hn. simpl.
    assert (Hne : last_detection_state g <> elephant_high).
    { destruct Hor as [Hl | Hne]; [|congruence].
      intro Hs. unfold consistent in Hc. rewrite Hs in Hc.
      assert (detection_locked g = true) by (apply Hc; discriminate).
      congruence. }
    apply DetectionState_eqb_neq in Hne. rewrite Hne. simpl. lia.
  - assert (Hnot : negb (DetectionState_eqb (tier g) elephant_high)
                   && DetectionState_eqb
                        (tier (update_detection_display now g))
                        elephant_high = false).
    { unfold tier, update_detection_display.
      destruct Hor as [Hne | [Hl Hsame]].
      - destruct (new_detection_state _ _) eqn:Hn; try congruence;
          destruct (last_detection_state g) eqn:Hs; simpl;
            case_tests; simpl; rewrite ?Hs; reflexivity.
      - rewrite Hl, <- Hsame.
        destruct (new_detection_state _ _) eqn:Hn; simpl;
          case_tests; simpl; rewrite <- ?Hsame; reflexivity. }
    rewrite Hnot. lia.
Qed.

Lemma bell_rings_on_entering_high_witness :
  consistent (store "elephant" 0.85 init)
  /\ bell_count
       (snd (AdvancedGui.update_detection_display 100
               (store "elephant" 0.85 init) (AdvancedGui.panel AdvancedGui.init)))
     = 1%nat.
Proof.
  assert (Hc : consistent (store "elephant" 0.85 init)).
  { split; intro H; [discriminate | now contradiction H]. }
  split; [exact Hc|].
  exact (proj1 (bell_rings_on_entering_high 100 (store "elephant" 0.85 init)
                  (AdvancedGui.panel AdvancedGui.init) Hc)).
Defined.

(** The countdown is computed from the attributes as the method leaves
    them. *)
Lemma display_timer_label (now : Q) (g : Gui) (p : Panel) :
  let g' := update_detection_display now g in
  timer_label (snd (AdvancedGui.update_detection_display now g p))
  = if detection_locked g'
       && negb (DetectionState_eqb (last_detection_state g') no_elephant)
    then Some (format_tenths
                 (max0 (detection_timer_duration g'
                        - (now - detection_timer_start g'))))
    else None.
Proof.
  intro g'. subst g'.
  unfold AdvancedGui.update_detection_display, update_detection_display.
  rewrite advanced_mapping_same.
  case_tests; reflexivity.
Qed.

(** A session that is locked after an update started its window at that
    time, or was inside a window that it kept. *)
Lemma update_locked_window (now : Q) (g : Gui) :
  detection_locked (update_detection_display now g) = true ->
  detection_timer_start (update_detection_display now g) = now
  \/ (detection_timer_start (update_detection_display now g)
      = detection_timer_start g
      /\ now < locked_until g).
Proof.
  unfold update_detection_display.
  case_tests; simpl; intro H; auto; try congruence.
  right. split; [reflexivity|]. apply elapsed_short. assumption.
Qed.

Lemma round_half_even_near (x : Q) :
  x - (1 # 2) <= inject_Z (round_half_even x)
  /\ inject_Z (round_half_even x) <= x + (1 # 2).
Proof.
  unfold round_half_even.
  pose proof (Qfloor_le x) as Hlo. pose proof (Qlt_floor x) as Hhi.
  rewrite inject_Z_plus in Hhi. change (inject_Z 1) with 1 in Hhi.
  destruct (Qle_bool (x - inject_Z (Qfloor x)) (1 # 2)) eqn:E1.
  - apply Qle_bool_iff in E1.
    destruct (Qle_bool (1 # 2) (x - inject_Z (Qfloor x))) eqn:E2.
    + apply Qle_bool_iff in E2.
      destruct (Z.even (Qfloor x)); rewrite ?inject_Z_plus;
        change (inject_Z 1) with 1; split; lra.
    + split; lra.
  - assert (H : ~ x - inject_Z (Qfloor x) <= 1 # 2).
    { intro H. apply Qle_bool_iff in H. congruence. }
    rewrite inject_Z_plus. change (inject_Z 1) with 1. split; lra.
Qed.

Lemma round_half_even_nonneg (x : Q) :
  0 <= x -> (0 <= round_half_even x)%Z.
Proof.
  intro Hx. unfold round_half_even.
  assert (Hf : (0 <= Qfloor x)%Z).
  { change 0%Z with (Qfloor 0). apply Qfloor_resp_le. exact Hx. }
  destruct (Qle_bool _ _); [destruct (Qle_bool _ _);
                            [destruct (Z.even _)|]|]; lia.
Qed.

(** X2: in a session whose lock flag agrees with its tier and whose dwell
    duration is positive, the countdown is shown after an update exactly
    when a tier is latched.  The time left, [locked_until - now], is then
    positive, so that [max(0, .)] never cuts it, and the text shows it
    rounded to one decimal: within a twentieth of a second of it, never
    negative ("0.0" is shown at the end of the window), and at most the
    duration, to the same rounding, when the timer was not started in the
    future. *)
Theorem countdown_shows_remaining_window (now : Q) (g : Gui) (p : Panel) :
  consistent g ->
  0 < detection_timer_duration g ->
  let g' := fst (AdvancedGui.update_detection_display now g p) in
  let p' := snd (AdvancedGui.update_detection_display now g p) in
  match timer_label p' with
  | None => tier g' = no_elephant
  | Some t =>
      tier g' <> no_elephant
      /\ 0 < locked_until g' - now
      /\ t = format_tenths (locked_until g' - now)
      /\ (locked_until g' - now) * 10 - (1 # 2) <= inject_Z t
      /\ inject_Z t <= (locked_until g' - now) * 10 + (1 # 2)
      /\ (0 <= t)%Z
      /\ (detection_timer_start g <= now ->
          inject_Z t <= detection_timer_duration g * 10 + (1 # 2))
  end.
Proof.
  intros Hc Hd g' p'. subst g' p'.
  rewrite display_timer_label, display_state.
  pose proof (update_consistent now g Hc) as Hc'.
  pose proof (update_locked_window now g) as Hw.
  pose proof (update_keeps_duration now g) as Hk.
  unfold consistent, tier, locked_until in *.
  destruct (detection_locked (update_detection_display now g)) eqn:Hl; simpl.
  - assert (Hne : last_detection_state (update_detection_display now g)
                  <> no_elephant) by (apply Hc'; reflexivity).
    apply DetectionState_eqb_neq in Hne. rewrite Hne. simpl.
    apply DetectionState_eqb_neq in Hne. rewrite Hk.
    set (start := detection_timer_start (update_detection_display now g))
      in *.
    set (d := detection_timer_duration g) in *.
    assert (Hpos : 0 < d - (now - start)).
    { destruct (Hw eq_refl) as [Hs | [Hs Hlt]]; rewrite Hs; lra. }
    assert (Hup : detection_timer_start g <= now -> d - (now - start) <= d).
    { intro Hle. destruct (Hw eq_refl) as [Hs | [Hs Hlt]]; rewrite Hs; lra. }
    rewrite (max0_positive _ Hpos).
    assert (Hsame : format_tenths (d - (now - start))
                    = format_tenths (start + d - now)).
    { unfold format_tenths, round_half_even.
      assert (E : (d - (now - start)) * 10 == (start + d - now) * 10)
        by lra.
      rewrite (Qfloor_comp _ _ E).
      assert (E1 : (d - (now - start)) * 10
                   - inject_Z (Qfloor ((start + d - now) * 10))
                   == (start + d - now) * 10
                      - inject_Z (Qfloor ((start + d - now) * 10)))
        by lra.
      assert (B1 : forall a b c, a == b -> Qle_bool a c = Qle_bool b c).
      { intros a b c Hab. destruct (Qle_bool a c) eqn:Ea;
          destruct (Qle_bool b c) eqn:Eb; auto.
        - apply Qle_bool_iff in Ea.
          assert (Qle_bool b c = true) by (apply Qle_bool_iff; lra).
          congruence.
        - apply Qle_bool_iff in Eb.
          assert (Qle_bool a c = true) by (apply Qle_bool_iff; lra).
          congruence. }
      assert (B2 : forall a b c, a == b -> Qle_bool c a = Qle_bool c b).
      { intros a b c Hab. destruct (Qle_bool c a) eqn:Ea;
          destruct (Qle_bool c b) eqn:Eb; auto.
        - apply Qle_bool_iff in Ea.
          assert (Qle_bool c b = true) by (apply Qle_bool_iff; lra).
          congruence.
        - apply Qle_bool_iff in Eb.
          assert (Qle_bool c a = true) by (apply Qle_bool_iff; lra).
          congruence. }
      cbv zeta. rewrite (B1 _ _ _ E1), (B2 _ _ _ E1). reflexivity. }
    rewrite Hsame.
    destruct (round_half_even_near ((start + d - now) * 10)) as [Hlo Hhi].
    fold (format_tenths (start + d - now)) in Hlo, Hhi.
    split; [exact Hne|]. split; [lra|]. split; [reflexivity|].
    split; [exact Hlo|]. split; [exact Hhi|].
    split.
    + apply round_half_even_nonneg. lra.
    + intro Hle. specialize (Hup Hle). lra.
  - destruct (last_detection_state (update_detection_display now g)) eqn:Hs;
      try reflexivity;
      (assert (false = true) by (apply Hc'; discriminate); discriminate).
Qed.

Lemma countdown_shows_remaining_window_witness :
  let g' := fst (AdvancedGui.update_detection_display 102 high_at_100
                   (AdvancedGui.panel AdvancedGui.init)) in
  let p' := snd (AdvancedGui.update_detection_display 102 high_at_100
                   (AdvancedGui.panel AdvancedGui.init)) in
  consistent high_at_100
  /\ 0 < detection_timer_duration high_at_100
  /\ timer_label p' = Some 30%Z
  /\ match timer_label p' with
     | None => tier g' = no_elephant
     | Some t =>
         tier g' <> no_elephant
         /\ 0 < locked_until g' - 102
         /\ t = format_tenths (locked_until g' - 102)
         /\ (locked_until g' - 102) * 10 - (1 # 2) <= inject_Z t
         /\ inject_Z t <= (locked_until g' - 102) * 10 + (1 # 2)
         /\ (0 <= t)%Z
         /\ (detection_timer_start high_at_100 <= 102 ->
             inject_Z t <= detection_timer_duration high_at_100 * 10 + (1 # 2))
     end.
Proof.
  assert (Hc : consistent high_at_100) by exact high_at_100_consistent.
  assert (Hd : 0 < detection_timer_duration high_at_100) by reflexivity.
  exact (conj Hc (conj Hd (conj eq_refl
           (countdown_shows_remaining_window 102 high_at_100
              (AdvancedGui.panel AdvancedGui.init) Hc Hd)))).
Defined.

(** ** The serial lines *)

Lemma split_not_nil (sep : ascii) (s : string) : split sep s <> [].
Proof.
  destruct s as [|c s]; simpl; [discriminate|].
  destruct (Ascii.eqb c sep); [discriminate|].
  destruct (split sep s); discriminate.
Qed.

(** A field without the separator, followed by the separator. *)
Lemma split_first_field (sep : ascii) (field rest : string) :
  split sep field = [field] ->
  split sep (field ++ String sep rest)%string = field :: split sep rest.
Proof.
  induction field as [|c field IH]; simpl; intro H.
  - rewrite Ascii.eqb_refl. reflexivity.
  - destruct (Ascii.eqb c sep); [discriminate|].
    destruct (split sep field) as [|p ps] eqn:E;
      [now apply split_not_nil in E|].
    injection H as -> ->. rewrite (IH eq_refl). reflexivity.
Qed.

Lemma split_cons (sep : ascii) (s : string) :
  exists p ps, split sep s = p :: ps.
Proof.
  destruct (split sep s) as [|p ps] eqn:E.
  - now apply split_not_nil in E.
  - eauto.
Qed.

Lemma prefix_empty (s : string) : String.prefix EmptyString s = true.
Proof. now destruct s. Qed.

Section Lines.

Variable B : Builtins.
Variables (now : Q) (a : AdvancedGui.App).

(** X3: a line "CLASSIFICATION:label,field..." whose second field converts
    to a float is the observation of the stripped label with that
    confidence, whatever fields follow; features, plot and statistics are
    left alone. *)
Theorem classification_line_is_observe (label rest : string) (c : float) :
  split "," label = [label] ->
  py_float B (py_strip B (hd EmptyString (split "," rest))) = Some c ->
  let a' := AdvancedGui.process_serial_line B now
              ("CLASSIFICATION:" ++ label ++ "," ++ rest)%string a in
  AdvancedGui.gui a'
  = fst (observe (py_strip B label) c now (AdvancedGui.gui a))
  /\ AdvancedGui.current_features a' = AdvancedGui.current_features a
  /\ AdvancedGui.plot_time a' = AdvancedGui.plot_time a
  /\ AdvancedGui.plot_rms a' = AdvancedGui.plot_rms a
  /\ AdvancedGui.total_samples a' = AdvancedGui.total_samples a.
Proof.
  intros Hlabel Hfloat a'. subst a'.
  unfold AdvancedGui.process_serial_line, AdvancedGui.parse_classification.
  simpl. rewrite prefix_empty.
  rewrite (split_first_field "," label rest Hlabel).
  destruct (split_cons "," rest) as (p1 & ps & E). rewrite E in *.
  simpl in Hfloat. rewrite Hfloat.
  unfold AdvancedGui.set_display. simpl.
  rewrite display_state. auto.
Qed.

(** X4: when the second field of a CLASSIFICATION line does not convert,
    the stripped label has already replaced the stored one: confidence,
    debounce attributes and widgets are as before, and in a locked session
    the next countdown update of the event loop treats the new label with
    the old confidence as an observation. *)
Theorem unreadable_confidence_keeps_label (label rest : string) (tick : Q) :
  split "," label = [label] ->
  py_float B (py_strip B (hd EmptyString (split "," rest))) = None ->
  let line := ("CLASSIFICATION:" ++ label ++ "," ++ rest)%string in
  let a' := AdvancedGui.process_serial_line B now line a in
  AdvancedGui.gui a'
  = store (py_strip B label) (current_confidence (AdvancedGui.gui a))
          (AdvancedGui.gui a)
  /\ AdvancedGui.panel a' = AdvancedGui.panel a
  /\ (detection_locked (AdvancedGui.gui a) = true ->
      AdvancedGui.gui
        (AdvancedGui.process_data_queue B true [(now, line)] tick a)
      = fst (observe (py_strip B label)
                     (current_confidence (AdvancedGui.gui a)) tick
                     (AdvancedGui.gui a))).
Proof.
  intros Hlabel Hfloat line a'.
  assert (Ha : a' = AdvancedGui.set_display
                      (store (py_strip B label)
                             (current_confidence (AdvancedGui.gui a))
                             (AdvancedGui.gui a),
                       AdvancedGui.panel a) a).
  { subst a' line.
    unfold AdvancedGui.process_serial_line, AdvancedGui.parse_classification.
    simpl. rewrite prefix_empty.
    rewrite (split_first_field "," label rest Hlabel).
    destruct (split_cons "," rest) as (p1 & ps & E). rewrite E in *.
    simpl in Hfloat. rewrite Hfloat. reflexivity. }
  split; [rewrite Ha; reflexivity|].
  split; [rewrite Ha; reflexivity|].
  intro Hl. unfold AdvancedGui.process_data_queue.
  cbn [fold_left fst snd]. fold line. fold a'. rewrite Ha.
  cbn [AdvancedGui.gui AdvancedGui.panel AdvancedGui.set_display fst snd
       store detection_locked].
  rewrite Hl. cbn [AdvancedGui.gui AdvancedGui.set_display fst].
  rewrite display_state. reflexivity.
Qed.

(** X5: a CLASSIFICATION line with a single field changes nothing. *)
Theorem short_classification_line_ignored (payload : string) :
  split "," payload = [payload] ->
  AdvancedGui.process_serial_line B now
    ("CLASSIFICATION:" ++ payload)%string a = a.
Proof.
  intro H.
  unfold AdvancedGui.process_serial_line, AdvancedGui.parse_classification.
  simpl. rewrite prefix_empty, H. reflexivity.
Qed.

Lemma parse_features_display (t : Q) (line : string)
    (x : AdvancedGui.App) :
  AdvancedGui.gui (AdvancedGui.parse_features B t line x)
  = AdvancedGui.gui x
  /\ AdvancedGui.panel (AdvancedGui.parse_features B t line x)
     = AdvancedGui.panel x.
Proof.
  unfold AdvancedGui.parse_features.
  destruct (AdvancedGui.float_fields B _); auto.
Qed.

Lemma parse_status_display (line : string) (x : AdvancedGui.App) :
  AdvancedGui.gui (AdvancedGui.parse_status B line x) = AdvancedGui.gui x
  /\ AdvancedGui.panel (AdvancedGui.parse_status B line x)
     = AdvancedGui.panel x.
Proof.
  unfold AdvancedGui.parse_status.
  destruct (split "," _) as [|p0 [|p1 [|p2 ps]]]; auto.
  destruct (py_int B p1); auto. destruct (py_int B p0); auto.
Qed.

(** X6: a line that does not begin with "CLASSIFICATION:" never touches the
    stored observation, the debounce attributes or the detection widgets. *)
Theorem only_classification_lines_reach_display (line : string) :
  String.prefix "CLASSIFICATION:" line = false ->
  AdvancedGui.gui (AdvancedGui.process_serial_line B now line a)
  = AdvancedGui.gui a
  /\ AdvancedGui.panel (AdvancedGui.process_serial_line B now line a)
     = AdvancedGui.panel a.
Proof.
  intro H. unfold AdvancedGui.process_serial_line. rewrite H.
  destruct (String.prefix "FEATURES:" line);
    [apply parse_features_display|].
  destruct (String.prefix "STATUS:" line);
    [apply parse_status_display | auto].
Qed.

(** X7: a FEATURES line with fewer than eight fields, or with one of its
    first eight fields that does not convert, changes nothing: no feature
    of the line is kept and no point is plotted, even for the fields that
    converted. *)
Theorem features_line_is_atomic (line : string) :
  String.prefix "FEATURES:" line = true ->
  (List.length (split "," (drop_chars 9 line)) < 8)%nat
  \/ (exists p, In p (firstn 8 (split "," (drop_chars 9 line)))
                /\ py_float B p = None) ->
  AdvancedGui.process_serial_line B now line a = a.
Proof.
  intros Hp Hbad. unfold AdvancedGui.process_serial_line. rewrite Hp.
  unfold AdvancedGui.parse_features, AdvancedGui.float_fields.
  destruct (split "," (drop_chars 9 line))
    as [|p0 [|p1 [|p2 [|p3 [|p4 [|p5 [|p6 [|p7 ps]]]]]]]]; try reflexivity.
  destruct Hbad as [Hlen | (p & Hin & Hnone)]; [simpl in Hlen; lia|].
  simpl in Hin.
  destruct (py_float B p0) eqn:E0; [|reflexivity].
  destruct (py_float B p1) eqn:E1; [|reflexivity].
  destruct (py_float B p2) eqn:E2; [|reflexivity].
  destruct (py_float B p3) eqn:E3; [|reflexivity].
  destruct (py_float B p4) eqn:E4; [|reflexivity].
  destruct (py_float B p5) eqn:E5; [|reflexivity].
  destruct (py_float B p6) eqn:E6; [|reflexivity].
  destruct (py_float B p7) eqn:E7; [|reflexivity].
  repeat (destruct Hin as [<- | Hin]; [congruence|]).
  contradiction.
Qed.

(** X8: with the builtins reading "elephant" and "0.85" as Python does,
    the TEST button is the observation ("elephant", 0.85).  Pressed while
    HIGH is latched and its window is running, it neither restarts the
    countdown nor rings the bell. *)
Theorem test_button_is_high_observation (t1 t2 : Q) :
  py_strip B "elephant" = "elephant" ->
  py_strip B "0.85" = "0.85" ->
  py_float B "0.85" = Some 0.85%float ->
  let a' := AdvancedGui.test_elephant_detection B t1 t2 a in
  AdvancedGui.gui a' = fst (observe "elephant" 0.85 t1 (AdvancedGui.gui a))
  /\ (consistent (AdvancedGui.gui a) ->
      tier (AdvancedGui.gui a) = elephant_high ->
      t1 < locked_until (AdvancedGui.gui a) ->
      locked_until (AdvancedGui.gui a') = locked_until (AdvancedGui.gui a)
      /\ tier (AdvancedGui.gui a') = elephant_high
      /\ bell_count (AdvancedGui.panel a')
         = bell_count (AdvancedGui.panel a)).
Proof.
  intros Hs1 Hs2 Hf a'. subst a'.
  unfold AdvancedGui.test_elephant_detection.
  destruct (parse_features_display t2
              "FEATURES:0.05,0.8,0.12,0.08,85.2,95.1,0.15,0.22"
              (AdvancedGui.parse_classification B t1
                 "CLASSIFICATION:elephant,0.85,high_confidence" a))
    as [-> ->].
  unfold AdvancedGui.parse_classification.
  cbn [drop_chars split Ascii.eqb Bool.eqb hd].
  rewrite Hs1, Hs2, Hf.
  cbn [AdvancedGui.gui AdvancedGui.panel AdvancedGui.set_display fst snd].
  rewrite display_state.
  split; [reflexivity|].
  intros Hc Ht Hlt.
  assert (Hl : detection_locked (AdvancedGui.gui a) = true).
  { apply consistent_locked; [exact Hc | rewrite Ht; discriminate]. }
  assert (Hsame : new_detection_state "elephant" 0.85
                  = tier (AdvancedGui.gui a)) by (rewrite Ht; reflexivity).
  change (update_detection_display t1
            (store "elephant" 0.85 (AdvancedGui.gui a)))
    with (fst (observe "elephant" 0.85 t1 (AdvancedGui.gui a))).
  rewrite (observe_holds "elephant" 0.85 t1 (AdvancedGui.gui a) Hl
             (or_intror Hsame) Hlt).
  split; [reflexivity|]. split; [exact Ht|].
  destruct (display_bell_cases t1 (store "elephant" 0.85 (AdvancedGui.gui a))
              (AdvancedGui.panel a))
    as [(_ & _ & _ & [Hf' | Hne]) | (Hb & _)].
  - simpl in Hf'. congruence.
  - simpl in Hne. unfold tier in Hsame. contradiction.
  - exact Hb.
Qed.

End Lines.

(** ** The event loop *)

Lemma display_label_agrees (now : Q) (g : Gui) (p : Panel) :
  label_agrees g p ->
  label_agrees (fst (AdvancedGui.update_detection_display now g p))
               (snd (AdvancedGui.update_detection_display now g p)).
Proof.
  unfold label_agrees, AdvancedGui.update_detection_display.
  rewrite advanced_mapping_same.
  destruct (new_detection_state _ _) eqn:Hn;
    destruct (detection_locked g) eqn:Hl;
    destruct (last_detection_state g) eqn:Hs; simpl;
      case_tests; simpl; rewrite ?Hs; intuition congruence.
Qed.

Lemma display_bell_counter (now : Q) (g : Gui) (p : Panel) :
  bell_count p = elephant_detections p ->
  bell_count (snd (AdvancedGui.update_detection_display now g p))
  = elephant_detections (snd (AdvancedGui.update_detection_display now g p)).
Proof.
  intro H.
  destruct (display_bell_cases now g p) as
    [(Hb & Hd & _) | (Hb & Hd & _)]; rewrite Hb, Hd, H; reflexivity.
Qed.

Lemma deque_append_length {A : Type} (m : nat) (x : A) (d : list A) :
  (List.length d <= m)%nat ->
  (List.length (deque_append m x d) <= m)%nat
  /\ List.length (deque_append m x d)
     = (if Nat.ltb (List.length d) m then S (List.length d)
        else List.length d).
Proof.
  intro H. unfold deque_append.
  destruct (Nat.ltb (List.length d) m) eqn:E.
  - apply Nat.ltb_lt in E. rewrite length_app. simpl. lia.
  - apply Nat.ltb_ge in E.
    destruct d as [|y d]; simpl in *; [lia|].
    rewrite length_app. simpl. lia.
Qed.

Section Loop.

Variable B : Builtins.

Lemma display_session_ok (now : Q) (a : AdvancedGui.App) (g : Gui) :
  session_ok a ->
  last_detection_state g = last_detection_state (AdvancedGui.gui a) ->
  detection_locked g = detection_locked (AdvancedGui.gui a) ->
  detection_timer_duration g = detection_timer_duration (AdvancedGui.gui a) ->
  session_ok
    (AdvancedGui.set_display
       (AdvancedGui.update_detection_display now g (AdvancedGui.panel a)) a).
Proof.
  intros (Hc & Hla & Hb & Hd & Hlen & Hcap) Hs Hl Hdur.
  unfold session_ok, AdvancedGui.set_display.
  cbn [AdvancedGui.gui AdvancedGui.panel AdvancedGui.plot_time
       AdvancedGui.plot_rms].
  refine (conj _ (conj _ (conj _ (conj _ (conj Hlen Hcap))))).
  - rewrite display_state. apply update_consistent.
    unfold consistent in *. rewrite Hs, Hl. exact Hc.
  - apply display_label_agrees. unfold label_agrees in *.
    rewrite Hs. exact Hla.
  - apply display_bell_counter. exact Hb.
  - rewrite display_state, update_keeps_duration. congruence.
Qed.

Lemma parse_classification_ok (now : Q) (line : string)
    (a : AdvancedGui.App) :
  session_ok a -> session_ok (AdvancedGui.parse_classification B now line a).
Proof.
  intro H. unfold AdvancedGui.parse_classification.
  destruct (split "," _) as [|p0 [|p1 ps]]; try exact H.
  destruct (py_float B (py_strip B p1)).
  - apply display_session_ok; auto.
  - destruct H as (Hc & Hla & Hb & Hd & Hlen & Hcap).
    unfold session_ok, AdvancedGui.set_display. simpl. auto 10.
Qed.

Lemma parse_features_ok (now : Q) (line : string) (a : AdvancedGui.App) :
  session_ok a -> session_ok (AdvancedGui.parse_features B now line a).
Proof.
  intro H. unfold AdvancedGui.parse_features.
  destruct (AdvancedGui.float_fields B _) as [f|]; [|exact H].
  destruct H as (Hc & Hla & Hb & Hd & Hlen & Hcap).
  unfold session_ok, AdvancedGui.update_realtime_plot. simpl.
  assert (Hcap' : (List.length (AdvancedGui.plot_rms a) <= 200)%nat)
    by (rewrite <- Hlen; exact Hcap).
  destruct (deque_append_length 200 now (AdvancedGui.plot_time a) Hcap)
    as [H1 H2].
  destruct (deque_append_length 200 (rms f) (AdvancedGui.plot_rms a) Hcap')
    as [_ H3].
  repeat split; auto; try apply Hc.
  rewrite H2, H3, Hlen. reflexivity.
Qed.

Lemma parse_status_ok (line : string) (a : AdvancedGui.App) :
  session_ok a -> session_ok (AdvancedGui.parse_status B line a).
Proof.
  intro H. unfold AdvancedGui.parse_status.
  destruct (split "," _) as [|p0 [|p1 [|p2 ps]]]; try exact H.
  destruct (py_int B p1); [|exact H]. destruct (py_int B p0); exact H.
Qed.

Lemma process_serial_line_ok (now : Q) (line : string)
    (a : AdvancedGui.App) :
  session_ok a -> session_ok (AdvancedGui.process_serial_line B now line a).
Proof.
  intro H. unfold AdvancedGui.process_serial_line.
  destruct (String.prefix "FEATURES:" line); [now apply parse_features_ok|].
  destruct (String.prefix "CLASSIFICATION:" line);
    [now apply parse_classification_ok|].
  destruct (String.prefix "STATUS:" line); [now apply parse_status_ok|].
  exact H.
Qed.

Lemma process_data_queue_ok (running : bool) (queued : list (Q * string))
    (now : Q) (a : AdvancedGui.App) :
  session_ok a ->
  session_ok (AdvancedGui.process_data_queue B running queued now a).
Proof.
  intro H. unfold AdvancedGui.process_data_queue.
  assert (Hq : session_ok
                 (fold_left
                    (fun acc tl =>
                       AdvancedGui.process_serial_line B (fst tl) (snd tl) acc)
                    queued a)).
  { revert a H. induction queued as [|[t line] queued IH]; intros a H.
    - exact H.
    - simpl. apply IH, process_serial_line_ok, H. }
  destruct running; [|exact Hq].
  destruct (detection_locked _); [|exact Hq].
  apply display_session_ok; auto.
Qed.

(** X9: whatever lines arrive, well formed or not, and whenever the TEST
    button is pressed, the session keeps its lock flag in agreement with
    the latched tier, its label showing that tier (or "Initializing" before
    anything was shown), one bell per counted detection, the dwell duration
    of 5, and two plot deques of equal length, at most 200. *)
Theorem session_invariants (a : AdvancedGui.App) :
  AdvancedGui.reachable B a ->
  (detection_locked (AdvancedGui.gui a) = true
   <-> last_detection_state (AdvancedGui.gui a) <> no_elephant)
  /\ label_agrees (AdvancedGui.gui a) (AdvancedGui.panel a)
  /\ bell_count (AdvancedGui.panel a)
     = elephant_detections (AdvancedGui.panel a)
  /\ detection_timer_duration (AdvancedGui.gui a) = 5
  /\ List.length (AdvancedGui.plot_time a)
     = List.length (AdvancedGui.plot_rms a)
  /\ (List.length (AdvancedGui.plot_time a) <= 200)%nat.
Proof.
  intro Hr. change (session_ok a).
  induction Hr as [|running queued now a _ IH|t1 t2 a _ IH].
  - unfold session_ok, consistent, label_agrees. simpl.
    repeat split; auto; try discriminate; try lia.
  - apply process_data_queue_ok, IH.
  - unfold AdvancedGui.test_elephant_detection.
    apply parse_features_ok, parse_classification_ok, IH.
Qed.

End Loop.

(** ** The plot *)

Lemma skipn_succ_tl {A : Type} (k : nat) (l : list A) :
  skipn (S k) l = tl (skipn k l).
Proof.
  revert l. induction k as [|k IH]; intro l.
  - destruct l; reflexivity.
  - destruct l as [|y l]; [reflexivity|].
    change (skipn (S (S k)) (y :: l)) with (skipn (S k) l).
    rewrite IH. reflexivity.
Qed.

(** Appending to a full deque keeps the last [m] entries. *)
Lemma deque_append_latest {A : Type} (m : nat) (x : A) (l : list A) :
  (0 < m)%nat ->
  deque_append m x (skipn (List.length l - m) l)
  = skipn (List.length (l ++ [x]) - m) (l ++ [x]).
Proof.
  intro Hm. unfold deque_append.
  rewrite length_skipn, length_app. simpl.
  destruct (Nat.ltb (List.length l - (List.length l - m)) m) eqn:E.
  - apply Nat.ltb_lt in E.
    replace (List.length l - m)%nat with 0%nat by lia.
    replace (List.length l + 1 - m)%nat with 0%nat by lia.
    reflexivity.
  - apply Nat.ltb_ge in E.
    replace (List.length l + 1 - m)%nat with (S (List.length l - m)) by lia.
    rewrite skipn_succ_tl, skipn_app.
    replace (List.length l - m - List.length l)%nat with 0%nat by lia.
    reflexivity.
Qed.

(** X10: after any number of feature samples plotted from the start of the
    session, the two deques hold the times and the RMS values of the most
    recent 200 samples, oldest first, and [current_features] is the last
    sample. *)
Theorem plot_keeps_latest_points (samples : list (Q * Features)) :
  let a := fold_left
             (fun acc s => AdvancedGui.update_realtime_plot (fst s) (snd s) acc)
             samples AdvancedGui.init in
  AdvancedGui.plot_time a
  = skipn (List.length samples - 200) (map fst samples)
  /\ AdvancedGui.plot_rms a
     = skipn (List.length samples - 200)
             (map (fun s => rms (snd s)) samples)
  /\ AdvancedGui.current_features a
     = match rev samples with
       | [] => None
       | s :: _ => Some (snd s)
       end.
Proof.
  induction samples as [|s samples IH] using rev_ind.
  - simpl. auto.
  - rewrite fold_left_app. simpl. destruct IH as (Ht & Hr & _).
    rewrite Ht, Hr, !map_app, rev_app_distr. simpl.
    rewrite <- (length_map fst samples) at 1.
    rewrite (deque_append_latest 200 (fst s) (map fst samples)) by lia.
    rewrite <- (length_map (fun s0 => rms (snd s0)) samples) at 1.
    rewrite (deque_append_latest 200 (rms (snd s))
               (map (fun s0 => rms (snd s0)) samples)) by lia.
    rewrite !length_app, !length_map. simpl. auto.
Qed.

(** * The noise logger *)

Lemma float_lt_trans_le (x y z : float) :
  (x <=? y)%float = true -> (y <? z)%float = true -> (x <? z)%float = true.
Proof.
  rewrite leb_spec, !ltb_spec. apply SFleb_SFltb_trans.
Qed.

(** X11: the event log and the indicator of the noise logger use different
    thresholds.  Every observation announced as a detected or a possible
    elephant is logged, an observation that is logged is never announced as
    no elephant, and the logged observations are exactly those that the
    other two GUIs map to HIGH. *)
Theorem logged_events_and_indicator (l : string) (c : float) :
  (update_detection_indicator l c = elephant_high
   \/ update_detection_indicator l c = elephant_medium ->
   NoiseLogger.logs_event l c = true)
  /\ (NoiseLogger.logs_event l c = true ->
      update_detection_indicator l c <> no_elephant)
  /\ (NoiseLogger.logs_event l c = true
      <-> new_detection_state l c = elephant_high).
Proof.
  unfold update_detection_indicator, NoiseLogger.logs_event,
    new_detection_state.
  destruct (String.eqb l "elephant"); simpl.
  - repeat split.
    + destruct (0.8 <? c)%float eqn:E8.
      * intros _. apply (float_lt_trans_le 0.5 0.8 c); auto.
      * destruct (0.6 <? c)%float eqn:E6.
        -- intros _. apply (float_lt_trans_le 0.5 0.6 c); auto.
        -- intros [H | H]; discriminate.
    + intros _. destruct (0.8 <? c)%float, (0.6 <? c)%float; discriminate.
    + intros ->. reflexivity.
    + destruct (0.5 <? c)%float; [reflexivity|].
      destruct (0.3 <? c)%float; discriminate.
  - repeat split; try discriminate. intros [H | H]; discriminate.
Qed.

Lemma logged_events_and_indicator_witness :
  update_detection_indicator "elephant" 0.7 = elephant_medium
  /\ NoiseLogger.logs_event "elephant" 0.7 = true
  /\ NoiseLogger.logs_event "elephant" 0.55 = true
  /\ update_detection_indicator "elephant" 0.55 <> no_elephant
  /\ new_detection_state "elephant" 0.55 = elephant_high.
Proof.
  assert (Hm : update_detection_indicator "elephant" 0.7 = elephant_medium)
    by reflexivity.
  assert (Hl : NoiseLogger.logs_event "elephant" 0.55 = true) by reflexivity.
  destruct (logged_events_and_indicator "elephant" 0.7%float) as (H1 & _).
  destruct (logged_events_and_indicator "elephant" 0.55%float)
    as (_ & H2 & H3).
  exact (conj Hm (conj (H1 (or_intror Hm))
           (conj Hl (conj (H2 Hl) (proj1 H3 Hl))))).
Defined.

Section Logger.

Variable B : Builtins.

(** X12: the two GUIs read the fields of a FEATURES line in different
    orders.  For a line whose first eight fields convert, the advanced GUI
    stores them; the noise logger ignores the line when it has fewer than
    ten fields and stores the same eight numbers when it has ten or more,
    and then the two agree on the RMS and on the dominant frequency only:
    the advanced GUI has as infrasound, low band, mid band, centroid, flux
    and envelope what the noise logger has as centroid, infrasound, low
    band, mid band, envelope and flux. *)
Theorem features_read_in_two_orders (now : Q) (a : AdvancedGui.App)
    (s : NoiseLogger.Logger) (line : string) :
  String.prefix "FEATURES:" line = true ->
  (8 <= List.length (split "," (drop_chars 9 line)))%nat ->
  Forall (fun p => py_float B p <> None)
         (firstn 8 (split "," (drop_chars 9 line))) ->
  exists fa,
    AdvancedGui.current_features
      (AdvancedGui.process_serial_line B now line a) = Some fa
    /\ ((List.length (split "," (drop_chars 9 line)) < 10)%nat ->
        NoiseLogger.process_serial_data B line s = s)
    /\ ((10 <= List.length (split "," (drop_chars 9 line)))%nat ->
        exists fl,
          NoiseLogger.current_features
            (NoiseLogger.process_serial_data B line s) = Some fl
          /\ rms fl = rms fa
          /\ dominant_freq fl = dominant_freq fa
          /\ spectral_centroid fl = infrasound_energy fa
          /\ infrasound_energy fl = low_band_energy fa
          /\ low_band_energy fl = mid_band_energy fa
          /\ mid_band_energy fl = spectral_centroid fa
          /\ temporal_envelope fl = spectral_flux fa
          /\ spectral_flux fl = temporal_envelope fa).
Proof.
  intros Hp Hlen Hall.
  unfold AdvancedGui.process_serial_line, NoiseLogger.process_serial_data,
    AdvancedGui.parse_features, NoiseLogger.parse_features.
  rewrite Hp.
  destruct (split "," (drop_chars 9 line))
    as [|p0 [|p1 [|p2 [|p3 [|p4 [|p5 [|p6 [|p7 ps]]]]]]]];
    simpl in Hlen; try lia.
  simpl in Hall.
  repeat match goal with
         | H : Forall _ (_ :: _) |- _ => inversion H; subst; clear H
         end.
  unfold AdvancedGui.float_fields, NoiseLogger.float_fields.
  destruct (py_float B p0) as [f0|]; [|contradiction].
  destruct (py_float B p1) as [f1|]; [|contradiction].
  destruct (py_float B p2) as [f2|]; [|contradiction].
  destruct (py_float B p3) as [f3|]; [|contradiction].
  destruct (py_float B p4) as [f4|]; [|contradiction].
  destruct (py_float B p5) as [f5|]; [|contradiction].
  destruct (py_float B p6) as [f6|]; [|contradiction].
  destruct (py_float B p7) as [f7|]; [|contradiction].
  eexists. split; [reflexivity|]. split.
  - intro Hshort. destruct ps as [|p8 [|p9 ps]]; try reflexivity.
    simpl in Hshort. lia.
  - intro Hlong. destruct ps as [|p8 [|p9 ps]]; simpl in Hlong; try lia.
    destruct (py_float B p9); eexists; (split; [reflexivity|]);
      simpl; auto 10.
Qed.

(** X13: in the noise logger a FEATURES line of at least ten fields whose
    first eight convert and whose tenth does not has already replaced the
    features and the label when the conversion fails: the confidence and
    the indicator stay as they were, the bell does not ring and
    [log_detection_event] adds no detection entry. *)
Theorem logger_unreadable_confidence (data : string) (s : NoiseLogger.Logger)
    (f : Features) (p8 p9 : string) :
  String.prefix "FEATURES:" data = true ->
  NoiseLogger.float_fields B (split "," (drop_chars 9 data)) = Some f ->
  nth_error (split "," (drop_chars 9 data)) 8 = Some p8 ->
  nth_error (split "," (drop_chars 9 data)) 9 = Some p9 ->
  py_float B p9 = None ->
  NoiseLogger.process_serial_data B data s
  = {| NoiseLogger.current_features := Some f;
       NoiseLogger.current_classification := py_strip B p8;
       NoiseLogger.current_confidence := NoiseLogger.current_confidence s;
       NoiseLogger.detection_indicator := NoiseLogger.detection_indicator s;
       NoiseLogger.bells := NoiseLogger.bells s;
       NoiseLogger.detection_events := NoiseLogger.detection_events s |}.
Proof.
  intros Hp Hf H8 H9 Hnone.
  unfold NoiseLogger.process_serial_data, NoiseLogger.parse_features.
  rewrite Hp.
  destruct (split "," (drop_chars 9 data))
    as [|q0 [|q1 [|q2 [|q3 [|q4 [|q5 [|q6 [|q7 [|q8 [|q9 qs]]]]]]]]]];
    try discriminate.
  simpl in H8, H9. injection H8 as ->. injection H9 as ->.
  rewrite Hf, Hnone. reflexivity.
Qed.

Lemma process_batch_closed (budget : nat) (queue : list string)
    (s : NoiseLogger.Logger) :
  NoiseLogger.process_batch B budget queue s
  = (skipn budget queue,
     fold_left (fun acc data => NoiseLogger.process_serial_data B data acc)
               (firstn budget queue) s).
Proof.
  revert queue s. induction budget as [|budget IH]; intros queue s.
  - destruct queue; reflexivity.
  - destruct queue as [|data rest]; [reflexivity|].
    simpl. apply IH.
Qed.

(** X14: one call of [process_queue] handles the first twenty queued lines
    in order, fewer when fewer are queued, and leaves the others queued in
    their order. *)
Theorem process_queue_takes_twenty (queue : list string)
    (s : NoiseLogger.Logger) :
  NoiseLogger.process_queue B queue s
  = (skipn 20 queue,
     fold_left (fun acc data => NoiseLogger.process_serial_data B data acc)
               (firstn 20 queue) s)
  /\ (List.length (fst (NoiseLogger.process_queue B queue s))
      = List.length queue - 20)%nat.
Proof.
  unfold NoiseLogger.process_queue. rewrite process_batch_closed.
  split; [reflexivity|]. apply length_skipn.
Qed.

End Logger.

(** * Labeling in the advanced GUI *)

Lemma truncate_below (x : Q) (n : Z) :
  (0 < n)%Z -> x < inject_Z n -> (truncate x < n)%Z.
Proof.
  intros Hn Hx. unfold truncate, Qlt in *. simpl in Hx.
  destruct (Z_lt_le_dec (Qnum x) 0) as [Hneg | Hpos].
  - assert (Qnum x ÷ Zpos (Qden x) <= 0)%Z; [|lia].
    rewrite <- (Z.opp_involutive (Qnum x)), Z.quot_opp_l by lia.
    assert (0 <= (- Qnum x) ÷ Zpos (Qden x))%Z by (apply Z.quot_pos; lia).
    lia.
  - apply Z.quot_lt_upper_bound; lia.
Qed.

Lemma truncate_nonneg (x : Q) : 0 <= x -> (0 <= truncate x)%Z.
Proof.
  intro Hx. unfold truncate, Qle in *. simpl in Hx.
  apply Z.quot_pos; lia.
Qed.

Lemma min1_le (x : Q) : min1 x <= 1.
Proof.
  unfold min1. destruct (Qle_bool x 1) eqn:E; [|lra].
  apply Qle_bool_iff in E. exact E.
Qed.

Lemma min1_below (x : Q) : x < 1 -> min1 x = x.
Proof.
  intro H. unfold min1.
  destruct (Qle_bool x 1) eqn:E; [reflexivity|].
  assert (Qle_bool x 1 = true) by (apply Qle_bool_iff; lra). congruence.
Qed.

Lemma nonzero_duration (d : Q) : ~ d == 0 -> Qeq_bool d 0 = false.
Proof.
  intro H. destruct (Qeq_bool d 0) eqn:E; [|reflexivity].
  apply Qeq_bool_iff in E. contradiction.
Qed.

Lemma update_buffer_collected (now : Q) (a : AdvancedGui.App)
    (s : Labeling.State) :
  match AdvancedGui.current_features a with
  | Some f =>
      Labeling.labeling_buffer s
      ++ [{| Labeling.features := f;
             Labeling.timestamp := now;
             Labeling.classification :=
               current_classification (AdvancedGui.gui a);
             Labeling.confidence := current_confidence (AdvancedGui.gui a) |}]
  | None => Labeling.labeling_buffer s
  end = collected now a s.
Proof.
  unfold collected. destruct (AdvancedGui.current_features a);
    [reflexivity | now rewrite app_nil_r].
Qed.

(** X15: a progress update that finds the labeling duration elapsed ends
    the labeling: flags, buffer, progress and bar are reset.  When the
    buffer, with the sample of this very update, is not empty, exactly one
    session is recorded, with all those samples, their count and the label
    of the labeling, whether or not the LABEL command could be written;
    the command is among the written ones only if the write returned.
    When the buffer is empty nothing is recorded and nothing is written. *)
Theorem labeling_ends_at_duration (now later : Q) (written : bool)
    (a : AdvancedGui.App) (s : Labeling.State) :
  Labeling.is_labeling s = true ->
  ~ Labeling.labeling_duration s == 0 ->
  Labeling.labeling_start_time s + Labeling.labeling_duration s <= now ->
  exists s',
    Labeling.update_labeling_progress now later written a s
    = Labeling.Returned s'
    /\ Labeling.is_labeling s' = false
    /\ Labeling.current_label s' = None
    /\ Labeling.labeling_buffer s' = []
    /\ Labeling.labeling_progress s' = 0
    /\ Labeling.progress_fill s' = 0%Z
    /\ (collected now a s = [] ->
        Labeling.training_data s' = Labeling.training_data s
        /\ Labeling.label_writes s' = Labeling.label_writes s)
    /\ (collected now a s <> [] ->
        (exists r,
            Labeling.training_data s' = Labeling.training_data s ++ [r]
            /\ Labeling.raw_samples r = collected now a s
            /\ Labeling.samples_count r = List.length (collected now a s)
            /\ Labeling.label r = Labeling.current_label s
            /\ Labeling.finished_at r = later)
        /\ Labeling.label_writes s'
           = if written
             then ("LABEL:" ++ Labeling.label_text (Labeling.current_label s)
                            ++ String (ascii_of_nat 10) EmptyString)%string
                  :: Labeling.label_writes s
             else Labeling.label_writes s).
Proof.
  intros Hl Hd Hle.
  unfold Labeling.update_labeling_progress.
  rewrite Hl, (nonzero_duration _ Hd). simpl negb. cbv iota.
  apply elapsed_reached in Hle. rewrite Hle.
  rewrite update_buffer_collected.
  eexists. split; [reflexivity|].
  unfold Labeling.finish_labeling. simpl.
  do 5 (split; [reflexivity|]).
  split.
  - intros ->. split; reflexivity.
  - intro Hne. destruct (collected now a s) as [|x xs]; [contradiction|].
    simpl. split; [eexists; repeat split|].
    destruct written; reflexivity.
Qed.

(** X16: a progress update inside the labeling duration keeps the labeling
    going: it appends the current features, classification and confidence
    as one sample when features have been received, none otherwise,
    records no session, sets the progress to the elapsed fraction and the
    bar below 100, not below 0 when the start is not in the future. *)
Theorem labeling_collects_while_running (now later : Q) (written : bool)
    (a : AdvancedGui.App) (s : Labeling.State) :
  Labeling.is_labeling s = true ->
  0 < Labeling.labeling_duration s ->
  now < Labeling.labeling_start_time s + Labeling.labeling_duration s ->
  exists s',
    Labeling.update_labeling_progress now later written a s
    = Labeling.Returned s'
    /\ Labeling.is_labeling s' = true
    /\ Labeling.current_label s' = Labeling.current_label s
    /\ Labeling.labeling_buffer s' = collected now a s
    /\ Labeling.training_data s' = Labeling.training_data s
    /\ Labeling.label_writes s' = Labeling.label_writes s
    /\ Labeling.labeling_progress s'
       == (now - Labeling.labeling_start_time s)
          / Labeling.labeling_duration s
    /\ (Labeling.progress_fill s' < 100)%Z
    /\ (Labeling.labeling_start_time s <= now ->
        (0 <= Labeling.progress_fill s')%Z).
Proof.
  intros Hl Hd Hlt.
  assert (Hfrac : (now - Labeling.labeling_start_time s)
                  / Labeling.labeling_duration s < 1).
  { apply Qlt_shift_div_r; lra. }
  unfold Labeling.update_labeling_progress.
  rewrite Hl, nonzero_duration by lra. simpl negb. cbv iota.
  apply elapsed_short in Hlt. rewrite Hlt.
  rewrite update_buffer_collected, (min1_below _ Hfrac).
  eexists. split; [reflexivity|]. simpl.
  repeat split; auto; try lra.
  - apply truncate_below; [lia|].
    change (inject_Z 100) with 100. lra.
  - intro Hs. apply truncate_nonneg.
    apply Qmult_le_0_compat; [|lra].
    apply Qle_shift_div_l; lra.
Qed.

Lemma finish_labeling_ok (written : bool) (later : Q) (s : Labeling.State) :
  Labeling.is_labeling s = true ->
  Labeling.labeling_duration s = 5 ->
  Labeling.current_label s <> None ->
  Forall Labeling.session_sound (Labeling.training_data s) ->
  Labeling.state_ok (Labeling.finish_labeling written later s).
Proof.
  intros Hl Hd Hlab Hall.
  unfold Labeling.state_ok, Labeling.finish_labeling. rewrite Hl. simpl.
  split; [exact Hd|]. split; [auto|]. split; [discriminate|].
  destruct (Labeling.labeling_buffer s) as [|x xs] eqn:E; simpl.
  - repeat split; auto; try lia; try lra.
  - repeat split; try lia; try lra.
    apply Forall_app. split; [exact Hall|].
    constructor; [|constructor].
    unfold Labeling.session_sound. simpl.
    repeat split; auto; try lia; discriminate.
Qed.

Lemma update_labeling_progress_ok (now later : Q) (written : bool)
    (a : AdvancedGui.App) (s : Labeling.State) :
  Labeling.state_ok s ->
  exists s',
    Labeling.update_labeling_progress now later written a s
    = Labeling.Returned s'
    /\ Labeling.state_ok s'.
Proof.
  intros Hok. pose proof Hok as (Hd & Hidle & Hlab & Hall & Hfill & Hp).
  unfold Labeling.update_labeling_progress.
  destruct (Labeling.is_labeling s) eqn:Hl; simpl negb; cbv iota;
    [|eauto].
  rewrite Hd. change (Qeq_bool 5 0) with false. cbv iota.
  destruct (Qle_bool 5 (now - Labeling.labeling_start_time s)) eqn:E.
  - eexists. split; [reflexivity|].
    apply finish_labeling_ok; simpl; auto.
  - eexists. split; [reflexivity|].
    apply elapsed_short in E.
    assert (Hfrac : (now - Labeling.labeling_start_time s) / 5 < 1).
    { apply Qlt_shift_div_r; lra. }
    unfold Labeling.state_ok. simpl.
    split; [reflexivity|]. split; [intro H; congruence|].
    split; [auto|]. split; [exact Hall|].
    split; [|apply min1_le].
    rewrite (min1_below _ Hfrac).
    apply truncate_below; [lia|]. change (inject_Z 100) with 100. lra.
Qed.

Lemma start_labeling_ok (connected : bool) (l : string)
    (started now later : Q) (written : bool) (a : AdvancedGui.App)
    (s : Labeling.State) :
  Labeling.state_ok s ->
  exists s',
    Labeling.start_labeling connected l started now later written a s
    = Labeling.Returned s'
    /\ Labeling.state_ok s'.
Proof.
  intros Hok. pose proof Hok as (Hd & Hidle & Hlab & Hall & Hfill & Hp).
  unfold Labeling.start_labeling.
  destruct connected; simpl negb; cbv iota; [|eauto].
  destruct (Labeling.is_labeling s) eqn:Hl; [eauto|].
  apply update_labeling_progress_ok.
  unfold Labeling.state_ok. simpl.
  split; [exact Hd|]. split; [discriminate|]. split; [discriminate|].
  split; [exact Hall|]. split; [exact Hfill | lra].
Qed.

(** X17: whatever buttons are pressed, whenever the progress updates run,
    whether or not the LABEL commands can be written and whenever the data
    is cleared, the labeling never divides by a zero duration; between
    calls the duration is 5, an idle labeling has an empty buffer, no
    label, progress 0 and an empty bar, a running one has a label; every
    session kept has at least one sample, as many as it counts, a label and
    averaged features; the progress is at most 1 and the bar is never left
    at its full width of 100. *)
Theorem labeling_invariants (s : Labeling.State) :
  Labeling.reachable s ->
  (Labeling.labeling_duration s = 5
   /\ (Labeling.is_labeling s = false ->
       Labeling.labeling_buffer s = [] /\ Labeling.current_label s = None
       /\ Labeling.labeling_progress s = 0
       /\ Labeling.progress_fill s = 0%Z)
   /\ (Labeling.is_labeling s = true -> Labeling.current_label s <> None)
   /\ Forall (fun r =>
                Labeling.samples_count r
                = List.length (Labeling.raw_samples r)
                /\ (0 < Labeling.samples_count r)%nat
                /\ Labeling.label r <> None
                /\ Labeling.avg_features r <> None)
             (Labeling.training_data s)
   /\ (Labeling.progress_fill s < 100)%Z
   /\ Labeling.labeling_progress s <= 1)
  /\ (forall now later written a,
        exists s', Labeling.update_labeling_progress now later written a s
                   = Labeling.Returned s')
  /\ (forall connected l started now later written a,
        exists s',
          Labeling.start_labeling connected l started now later written a s
          = Labeling.Returned s').
Proof.
  intro Hr. fold (Labeling.session_sound).
  change (Labeling.state_ok s
          /\ (forall now later written a,
                exists s',
                  Labeling.update_labeling_progress now later written a s
                  = Labeling.Returned s')
          /\ (forall connected l started now later written a,
                exists s',
                  Labeling.start_labeling connected l started now later
                                          written a s
                  = Labeling.Returned s')).
  assert (Hok : Labeling.state_ok s).
  { induction Hr as [|connected l started now later written a s _ IH
                      |now later written a s _ IH
                      |confirmed connected written s _ IH].
    - unfold Labeling.state_ok. simpl.
      repeat split; auto; try discriminate; try lia; lra.
    - destruct (start_labeling_ok connected l started now later written
                  a s IH) as (s' & -> & Hs'). exact Hs'.
    - destruct (update_labeling_progress_ok now later written a s IH)
        as (s' & -> & Hs'). exact Hs'.
    - unfold Labeling.clear_data.
      destruct (confirmed && connected && written); [|exact IH].
      destruct IH as (Hd & Hidle & Hlab & Hall & Hfill & Hp).
      unfold Labeling.state_ok. simpl.
      repeat split; auto; try lia; apply Hidle; assumption. }
  split; [exact Hok|]. split.
  - intros now later written a.
    destruct (update_labeling_progress_ok now later written a s Hok)
      as (s' & H & _).
    eauto.
  - intros connected l started now later written a.
    destruct (start_labeling_ok connected l started now later written a s
                Hok) as (s' & H & _).
    eauto.
Qed.

(** * Instances *)

Lemma classification_line_is_observe_witness :
  split "," "elephant" = ["elephant"]
  /\ py_float example_builtins
       (py_strip example_builtins
          (hd EmptyString (split "," "0.85,high_confidence")))
     = Some 0.85%float
  /\ AdvancedGui.gui
       (AdvancedGui.process_serial_line example_builtins 100
          "CLASSIFICATION:elephant,0.85,high_confidence" AdvancedGui.init)
     = fst (observe "elephant" 0.85 100 init).
Proof.
  assert (H1 : split "," "elephant" = ["elephant"]) by reflexivity.
  assert (H2 : py_float example_builtins
                 (py_strip example_builtins
                    (hd EmptyString (split "," "0.85,high_confidence")))
               = Some 0.85%float) by reflexivity.
  exact (conj H1 (conj H2
           (proj1 (classification_line_is_observe example_builtins 100
                     AdvancedGui.init "elephant" "0.85,high_confidence"
                     0.85%float H1 H2)))).
Defined.

Lemma unreadable_confidence_keeps_label_witness :
  split "," "elephant" = ["elephant"]
  /\ py_float example_builtins
       (py_strip example_builtins (hd EmptyString (split "," "n/a")))
     = None
  /\ current_classification
       (AdvancedGui.gui
          (AdvancedGui.process_serial_line example_builtins 100
             "CLASSIFICATION:elephant,n/a" AdvancedGui.init))
     = "elephant"
  /\ AdvancedGui.panel
       (AdvancedGui.process_serial_line example_builtins 100
          "CLASSIFICATION:elephant,n/a" AdvancedGui.init)
     = AdvancedGui.panel AdvancedGui.init.
Proof.
  assert (H1 : split "," "elephant" = ["elephant"]) by reflexivity.
  assert (H2 : py_float example_builtins
                 (py_strip example_builtins
                    (hd EmptyString (split "," "n/a"))) = None)
    by reflexivity.
  destruct (unreadable_confidence_keeps_label example_builtins 100
              AdvancedGui.init "elephant" "n/a" 101 H1 H2) as (Hg & Hp & _).
  exact (conj H1 (conj H2 (conj (f_equal current_classification Hg) Hp))).
Defined.

Lemma short_classification_line_ignored_witness :
  split "," "elephant" = ["elephant"]
  /\ AdvancedGui.process_serial_line example_builtins 100
       "CLASSIFICATION:elephant" AdvancedGui.init
     = AdvancedGui.init.
Proof.
  assert (H1 : split "," "elephant" = ["elephant"]) by reflexivity.
  exact (conj H1 (short_classification_line_ignored example_builtins 100
                    AdvancedGui.init "elephant" H1)).
Defined.

Lemma only_classification_lines_reach_display_witness :
  String.prefix "CLASSIFICATION:" "STATUS:512,1000,45000" = false
  /\ AdvancedGui.gui
       (AdvancedGui.process_serial_line example_builtins 100
          "STATUS:512,1000,45000" AdvancedGui.init)
     = AdvancedGui.gui AdvancedGui.init.
Proof.
  assert (H1 : String.prefix "CLASSIFICATION:" "STATUS:512,1000,45000"
               = false) by reflexivity.
  exact (conj H1
           (proj1 (only_classification_lines_reach_display example_builtins
                     100 AdvancedGui.init "STATUS:512,1000,45000" H1))).
Defined.

Lemma features_line_is_atomic_witness :
  String.prefix "FEATURES:" "FEATURES:0.05,0.8,oops,0.08,85.2,95.1,0.15,0.22"
  = true
  /\ AdvancedGui.process_serial_line example_builtins 100
       "FEATURES:0.05,0.8,oops,0.08,85.2,95.1,0.15,0.22" AdvancedGui.init
     = AdvancedGui.init.
Proof.
  assert (H1 : String.prefix "FEATURES:"
                 "FEATURES:0.05,0.8,oops,0.08,85.2,95.1,0.15,0.22" = true)
    by reflexivity.
  refine (conj H1 (features_line_is_atomic example_builtins 100
                     AdvancedGui.init _ H1 _)).
  right. exists "oops". split; [|reflexivity].
  simpl. auto.
Defined.

Lemma test_button_is_high_observation_witness :
  py_strip example_builtins "elephant" = "elephant"
  /\ py_strip example_builtins "0.85" = "0.85"
  /\ py_float example_builtins "0.85" = Some 0.85%float
  /\ AdvancedGui.gui
       (AdvancedGui.test_elephant_detection example_builtins 100 100
          AdvancedGui.init)
     = fst (observe "elephant" 0.85 100 init).
Proof.
  assert (H1 : py_strip example_builtins "elephant" = "elephant")
    by reflexivity.
  assert (H2 : py_strip example_builtins "0.85" = "0.85") by reflexivity.
  assert (H3 : py_float example_builtins "0.85" = Some 0.85%float)
    by reflexivity.
  exact (conj H1 (conj H2 (conj H3
           (proj1 (test_button_is_high_observation example_builtins
                     AdvancedGui.init 100 100 H1 H2 H3))))).
Defined.

Lemma session_invariants_witness :
  AdvancedGui.reachable example_builtins
    (AdvancedGui.test_elephant_detection example_builtins 100 100
       AdvancedGui.init)
  /\ bell_count
       (AdvancedGui.panel
          (AdvancedGui.test_elephant_detection example_builtins 100 100
             AdvancedGui.init))
     = elephant_detections
         (AdvancedGui.panel
            (AdvancedGui.test_elephant_detection example_builtins 100 100
               AdvancedGui.init)).
Proof.
  assert (Hr : AdvancedGui.reachable example_builtins
                 (AdvancedGui.test_elephant_detection example_builtins
                    100 100 AdvancedGui.init)).
  { apply AdvancedGui.reach_test, AdvancedGui.reach_start. }
  destruct (session_invariants example_builtins _ Hr) as (_ & _ & Hb & _).
  exact (conj Hr Hb).
Defined.

Lemma features_read_in_two_orders_witness :
  String.prefix "FEATURES:" labelled_features_line = true
  /\ (10 <= List.length (split "," (drop_chars 9 labelled_features_line)))%nat
  /\ exists fa fl,
       AdvancedGui.current_features
         (AdvancedGui.process_serial_line example_builtins 100
            labelled_features_line AdvancedGui.init) = Some fa
       /\ NoiseLogger.current_features
            (NoiseLogger.process_serial_data example_builtins
               labelled_features_line NoiseLogger.init) = Some fl
       /\ spectral_centroid fl = infrasound_energy fa.
Proof.
  assert (H1 : String.prefix "FEATURES:" labelled_features_line = true)
    by reflexivity.
  assert (H2 : (8 <= List.length
                      (split "," (drop_chars 9 labelled_features_line)))%nat)
    by (vm_compute; lia).
  assert (H3 : Forall (fun p => py_float example_builtins p <> None)
                      (firstn 8
                         (split "," (drop_chars 9 labelled_features_line)))).
  { apply Forall_forall. intros p Hin. vm_compute in Hin.
    repeat (destruct Hin as [<- | Hin];
            [intro E; vm_compute in E; discriminate E|]).
    contradiction. }
  assert (H4 : (10 <= List.length
                       (split "," (drop_chars 9 labelled_features_line)))%nat)
    by (vm_compute; lia).
  destruct (features_read_in_two_orders example_builtins 100
              AdvancedGui.init NoiseLogger.init labelled_features_line
              H1 H2 H3)
    as (fa & Ha & _ & Hlong).
  destruct (Hlong H4) as (fl & Hl & _ & _ & Hc & _).
  exact (conj H1 (conj H4
           (ex_intro _ fa (ex_intro _ fl (conj Ha (conj Hl Hc)))))).
Defined.

Lemma logger_unreadable_confidence_witness :
  let data := "FEATURES:0.05,0.8,0.12,0.08,85.2,95.1,0.15,0.22,elephant,n/a" in
  String.prefix "FEATURES:" data = true
  /\ py_float example_builtins "n/a" = None
  /\ NoiseLogger.current_classification
       (NoiseLogger.process_serial_data example_builtins data
          NoiseLogger.init)
     = "elephant"
  /\ NoiseLogger.detection_indicator
       (NoiseLogger.process_serial_data example_builtins data
          NoiseLogger.init)
     = text_initializing.
Proof.
  intro data.
  assert (H1 : String.prefix "FEATURES:" data = true) by reflexivity.
  assert (H2 : py_float example_builtins "n/a" = None) by reflexivity.
  rewrite (logger_unreadable_confidence example_builtins data
             NoiseLogger.init
             {| rms := 0.05; spectral_centroid := 0.8;
                infrasound_energy := 0.12; low_band_energy := 0.08;
                mid_band_energy := 85.2; dominant_freq := 95.1;
                temporal_envelope := 0.15; spectral_flux := 0.22 |}
             "elephant" "n/a" H1 eq_refl eq_refl eq_refl H2).
  exact (conj H1 (conj H2 (conj eq_refl eq_refl))).
Defined.

Lemma labeling_ends_at_duration_witness :
  let a := AdvancedGui.test_elephant_detection example_builtins 100 100
             AdvancedGui.init in
  Labeling.is_labeling labeling_from_0 = true
  /\ ~ Labeling.labeling_duration labeling_from_0 == 0
  /\ Labeling.labeling_start_time labeling_from_0
     + Labeling.labeling_duration labeling_from_0 <= 6
  /\ collected 6 a labeling_from_0 <> []
  /\ exists s',
       Labeling.update_labeling_progress 6 6 false a labeling_from_0
       = Labeling.Returned s'
       /\ Labeling.is_labeling s' = false
       /\ List.length (Labeling.training_data s') = 1%nat
       /\ Labeling.label_writes s' = [].
Proof.
  intro a.
  assert (H1 : Labeling.is_labeling labeling_from_0 = true) by reflexivity.
  assert (H2 : ~ Labeling.labeling_duration labeling_from_0 == 0)
    by discriminate.
  assert (H3 : Labeling.labeling_start_time labeling_from_0
               + Labeling.labeling_duration labeling_from_0 <= 6)
    by discriminate.
  assert (H4 : collected 6 a labeling_from_0 <> []) by discriminate.
  destruct (labeling_ends_at_duration 6 6 false a labeling_from_0
              H1 H2 H3) as (s' & Hs & Hl & _ & _ & _ & _ & _ & Hrec).
  destruct (Hrec H4) as ((r & Ht & _) & Hw).
  refine (conj H1 (conj H2 (conj H3 (conj H4
            (ex_intro _ s' (conj Hs (conj Hl (conj _ Hw)))))))).
  rewrite Ht. reflexivity.
Defined.

Lemma labeling_collects_while_running_witness :
  Labeling.is_labeling labeling_from_0 = true
  /\ 0 < Labeling.labeling_duration labeling_from_0
  /\ 2 < Labeling.labeling_start_time labeling_from_0
         + Labeling.labeling_duration labeling_from_0
  /\ exists s',
       Labeling.update_labeling_progress 2 2 true AdvancedGui.init
         labeling_from_0
       = Labeling.Returned s'
       /\ (Labeling.progress_fill s' < 100)%Z.
Proof.
  assert (H1 : Labeling.is_labeling labeling_from_0 = true) by reflexivity.
  assert (H2 : 0 < Labeling.labeling_duration labeling_from_0)
    by reflexivity.
  assert (H3 : 2 < Labeling.labeling_start_time labeling_from_0
                   + Labeling.labeling_duration labeling_from_0)
    by reflexivity.
  destruct (labeling_collects_while_running 2 2 true AdvancedGui.init
              labeling_from_0 H1 H2 H3)
    as (s' & Hs & _ & _ & _ & _ & _ & _ & Hf & _).
  exact (conj H1 (conj H2 (conj H3 (ex_intro _ s' (conj Hs Hf))))).
Defined.

Lemma labeling_invariants_witness :
  Labeling.reachable labeling_from_0
  /\ Labeling.labeling_duration labeling_from_0 = 5
  /\ (Labeling.progress_fill labeling_from_0 < 100)%Z.
Proof.
  assert (Hr : Labeling.reachable labeling_from_0).
  { apply Labeling.reach_start, Labeling.reach_init. }
  destruct (labeling_invariants labeling_from_0 Hr)
    as ((Hd & _ & _ & _ & Hf & _) & _).
  exact (conj Hr (conj Hd Hf)).
Defined.

(** * The event loop without new lines *)

(** X18: the countdown update of the event loop alone ends a detection:
    when the stored label is not "elephant" and the window of a latched
    tier has elapsed, a turn with an empty queue unlocks the session, shows
    "No Elephant", clears the countdown and rings nothing. *)
Theorem event_loop_releases_expired_detection (B : Builtins) (now : Q)
    (a : AdvancedGui.App) :
  consistent (AdvancedGui.gui a) ->
  tier (AdvancedGui.gui a) <> no_elephant ->
  current_classification (AdvancedGui.gui a) <> "elephant" ->
  locked_until (AdvancedGui.gui a) <= now ->
  let a' := AdvancedGui.process_data_queue B true [] now a in
  tier (AdvancedGui.gui a') = no_elephant
  /\ detection_locked (AdvancedGui.gui a') = false
  /\ detection_label (AdvancedGui.panel a') = text_no_elephant
  /\ timer_label (AdvancedGui.panel a') = None
  /\ bell_count (AdvancedGui.panel a') = bell_count (AdvancedGui.panel a).
Proof.
  intros Hc Ht Hlabel Hle a'. subst a'.
  pose proof (consistent_locked _ Hc Ht) as Hl.
  apply elapsed_reached in Hle.
  unfold AdvancedGui.process_data_queue. cbn [fold_left]. rewrite Hl.
  unfold AdvancedGui.set_display, AdvancedGui.update_detection_display,
    advanced_new_detection_state.
  rewrite (label_is_not_elephant _ Hlabel), Hl, Hle. simpl.
  repeat split.
Qed.

Lemma event_loop_releases_expired_detection_witness :
  let a := AdvancedGui.process_serial_line example_builtins 101
             "CLASSIFICATION:not_elephant,0.05"
             (AdvancedGui.test_elephant_detection example_builtins 100 100
                AdvancedGui.init) in
  tier (AdvancedGui.gui a) = elephant_high
  /\ locked_until (AdvancedGui.gui a) <= 106
  /\ detection_label
       (AdvancedGui.panel
          (AdvancedGui.process_data_queue example_builtins true [] 106 a))
     = text_no_elephant.
Proof.
  intro a.
  assert (Hc : consistent (AdvancedGui.gui a)).
  { split; intro H; [discriminate | reflexivity]. }
  assert (Ht : tier (AdvancedGui.gui a) = elephant_high) by reflexivity.
  assert (Hne : tier (AdvancedGui.gui a) <> no_elephant) by discriminate.
  assert (Hlab : current_classification (AdvancedGui.gui a) <> "elephant")
    by discriminate.
  assert (Hle : locked_until (AdvancedGui.gui a) <= 106) by discriminate.
  destruct (event_loop_releases_expired_detection example_builtins 106 a
              Hc Hne Hlab Hle) as (_ & _ & Hd & _).
  exact (conj Ht (conj Hle Hd)).
Defined.

Lemma status_prefix_excludes (line : string) :
  String.prefix "STATUS:" line = true ->
  String.prefix "FEATURES:" line = false
  /\ String.prefix "CLASSIFICATION:" line = false.
Proof.
  destruct line as [|[b0 b1 b2 b3 b4 b5 b6 b7] line]; [discriminate|].
  intro H.
  destruct b0, b1, b2, b3, b4, b5, b6, b7;
    try (vm_compute in H; discriminate H);
    split; reflexivity.
Qed.

(** X19: what a STATUS line does to the session, whatever the line.  With
    fewer than three fields, or with a second field (the uptime) or a first
    field (the sample count) that does not convert to an integer, the
    whole session is unchanged: an unreadable uptime discards a readable
    count.  Otherwise [stats['total_samples']] becomes the count and
    nothing else changes. *)
Theorem status_line_needs_both_counts (B : Builtins) (now : Q)
    (a : AdvancedGui.App) (line : string) :
  String.prefix "STATUS:" line = true ->
  let parts := split "," (drop_chars 7 line) in
  let a' := AdvancedGui.process_serial_line B now line a in
  ((List.length parts < 3)%nat -> a' = a)
  /\ (forall uptime,
        nth_error parts 1 = Some uptime -> py_int B uptime = None -> a' = a)
  /\ (forall sample_count,
        nth_error parts 0 = Some sample_count ->
        py_int B sample_count = None -> a' = a)
  /\ (forall sample_count uptime n u,
        (3 <= List.length parts)%nat ->
        nth_error parts 0 = Some sample_count ->
        nth_error parts 1 = Some uptime ->
        py_int B sample_count = Some n ->
        py_int B uptime = Some u ->
        a' = {| AdvancedGui.gui := AdvancedGui.gui a;
                AdvancedGui.panel := AdvancedGui.panel a;
                AdvancedGui.current_features := AdvancedGui.current_features a;
                AdvancedGui.plot_time := AdvancedGui.plot_time a;
                AdvancedGui.plot_rms := AdvancedGui.plot_rms a;
                AdvancedGui.total_samples := n |}).
Proof.
  intros Hp parts a'. subst parts a'.
  destruct (status_prefix_excludes line Hp) as [Hf Hc].
  unfold AdvancedGui.process_serial_line, AdvancedGui.parse_status.
  rewrite Hf, Hc, Hp.
  destruct (split "," (drop_chars 7 line)) as [|p0 [|p1 [|p2 ps]]]; simpl.
  - repeat split; auto; intros; simpl in *; try discriminate; lia.
  - repeat split; auto; intros; simpl in *; try discriminate; lia.
  - repeat split; auto; intros; simpl in *; try discriminate; lia.
  - split; [intro H; lia|]. split; [|split].
    + intros uptime H Hn. injection H as ->. rewrite Hn. reflexivity.
    + intros sc H Hn. injection H as ->. rewrite Hn.
      destruct (py_int B p1); reflexivity.
    + intros sc up n u _ H0 H1 Hn Hu.
      injection H0 as ->. injection H1 as ->. rewrite Hn, Hu. reflexivity.
Qed.

Lemma status_line_needs_both_counts_witness :
  String.prefix "STATUS:" "STATUS:512,1000,45000" = true
  /\ String.prefix "STATUS:" "STATUS:512,n/a,45000" = true
  /\ AdvancedGui.total_samples
       (AdvancedGui.process_serial_line example_builtins 100
          "STATUS:512,1000,45000" AdvancedGui.init) = 512%Z
  /\ AdvancedGui.process_serial_line example_builtins 100
       "STATUS:512,n/a,45000" AdvancedGui.init = AdvancedGui.init
  /\ AdvancedGui.process_serial_line example_builtins 100
       "STATUS:512" AdvancedGui.init = AdvancedGui.init.
Proof.
  assert (H1 : String.prefix "STATUS:" "STATUS:512,1000,45000" = true)
    by reflexivity.
  assert (H2 : String.prefix "STATUS:" "STATUS:512,n/a,45000" = true)
    by reflexivity.
  assert (H3 : String.prefix "STATUS:" "STATUS:512" = true) by reflexivity.
  destruct (status_line_needs_both_counts example_builtins 100
              AdvancedGui.init "STATUS:512,1000,45000" H1)
    as (_ & _ & _ & Hok).
  destruct (status_line_needs_both_counts example_builtins 100
              AdvancedGui.init "STATUS:512,n/a,45000" H2)
    as (_ & Hup & _).
  destruct (status_line_needs_both_counts example_builtins 100
              AdvancedGui.init "STATUS:512" H3) as (Hshort & _).
  refine (conj H1 (conj H2 (conj _ (conj _ _)))).
  - rewrite (Hok "512" "1000" 512%Z 1000%Z); [reflexivity| | | | |];
      first [reflexivity | vm_compute; lia].
  - exact (Hup "n/a" eq_refl eq_refl).
  - apply Hshort. vm_compute. lia.
Defined.
